(** * Agentic RAG control loop (main.py): a shallow embedding and its properties

    The development embeds [retrieval_tool] and [run_agentic_rag] of
    [src/main.py].  The three external collaborators of the loop (the FAISS
    retriever, the critic chain and the generator chain) are oracles of a
    [World]; every call to one of them is recorded in a trace, and an oracle
    may answer differently depending on the calls made before it, which covers
    a language model that is not deterministic.

    Python's mutable locals [valid_context] and [debug_info] live in a
    [Store] that is threaded through a state-and-exception monad, so that an
    [except] handler sees the mutations made before the [raise], as in
    Python.  Logging is not modelled. *)

From Stdlib Require Import String Ascii List Arith Lia.
From stdpp Require Import base option list strings gmap.

Open Scope string_scope.
Open Scope list_scope.

(** ** Python values and exceptions *)

(** Exception classes, as far as the handlers of main.py tell them apart:
    [except ValueError] against [except Exception].  All of them are
    subclasses of [Exception]. *)
Inductive exn : Type :=
| ValueError
| KeyError
| TypeError
| AttributeError
| OtherException.

(** The result of evaluating a Python expression: a value or a raised
    exception. *)
Inductive outcome (A : Type) : Type :=
| Return (a : A)
| Raise (e : exn).
Arguments Return {A} a.
Arguments Raise {A} e.

(** [str.lower()], on ASCII text: A..Z are mapped to a..z and every other
    character is kept. *)
Definition lower_ascii (c : ascii) : ascii :=
  let n := nat_of_ascii c in
  if Nat.leb 65 n && Nat.leb n 90 then ascii_of_nat (n + 32) else c.

Fixpoint lower (s : string) : string :=
  match s with
  | EmptyString => EmptyString
  | String c s' => String (lower_ascii c) (lower s')
  end.

(** A JSON value as the critic's output parser hands it over: a string, or
    anything that is not a string (number, boolean, null, array, object). *)
Inductive value : Type :=
| VStr (s : string)
| VOther.

(** What [critic_chain.invoke] returns: the parsed JSON, which is a dict
    when the model obeyed the format instructions. *)
Inductive grade_t : Type :=
| GDict (d : gmap string value)
| GOther.

(** [grade['binary_score'].lower()]: subscripting a non-dict raises
    TypeError, a missing key KeyError, and a non-string value has no
    [lower]. *)
Definition binary_score_lower (grade : grade_t) : outcome string :=
  match grade with
  | GOther => Raise TypeError
  | GDict d =>
      match d !! "binary_score" with
      | None => Raise KeyError
      | Some (VStr s) => Return (lower s)
      | Some VOther => Raise AttributeError
      end
  end.

(** ** Data model *)

Record Document : Type := {
  page_content : string;
  metadata : list (string * string)
}.

(** The [debug_info] dict of [run_agentic_rag]; its four keys are fixed. *)
Record DebugInfo : Type := {
  total_retrieved : nat;
  relevant_chunks : nat;
  chunk_scores : list string;
  timestamp : string
}.

(** The dict returned by [run_agentic_rag]; [None] is Python's None. *)
Record Result : Type := {
  answer : string;
  debug_info : option DebugInfo
}.

(** ** External calls *)

Inductive event : Type :=
| EvRetrieve (query : string) (k : nat)
| EvCritic (context question : string)
| EvGenerate (context question : string).

Definition is_retrieve (ev : event) : bool :=
  match ev with EvRetrieve _ _ => true | _ => false end.
Definition is_critic (ev : event) : bool :=
  match ev with EvCritic _ _ => true | _ => false end.
Definition is_generate (ev : event) : bool :=
  match ev with EvGenerate _ _ => true | _ => false end.

(** A built index: [as_retriever(search_kwargs={"k": k}).invoke(query)],
    given the calls made so far. *)
Record FAISS : Type := {
  retriever_invoke : list event -> string -> nat -> outcome (list Document)
}.

Record World : Type := {
  (** the global [vector_store]; [None] until a PDF is ingested *)
  vector_store : option FAISS;
  (** [critic_chain.invoke({"context": c, "question": q, ...})] *)
  critic_chain : list event -> string -> string -> outcome grade_t;
  (** [generator_chain.invoke({"context": c, "question": q}).content] *)
  generator_chain : list event -> string -> string -> outcome string;
  (** [datetime.now().isoformat()] at the start of the query *)
  datetime_now : string
}.

(** ** The store and the monad *)

Record Store : Type := {
  trace : list event;
  valid_context : list string;
  debug : DebugInfo
}.

Definition M (A : Type) : Type := Store -> outcome A * Store.

Definition ret {A} (a : A) : M A := fun s => (Return a, s).
Definition raise {A} (e : exn) : M A := fun s => (Raise e, s).
Definition bind {A B} (m : M A) (f : A -> M B) : M B :=
  fun s =>
    match m s with
    | (Return a, s') => f a s'
    | (Raise e, s') => (Raise e, s')
    end.

Notation "x <- c ;; k" := (bind c (fun x => k))
  (at level 100, c at next level, right associativity).
Notation "c ;; k" := (bind c (fun _ => k))
  (at level 100, right associativity).

(** [try: m  except Exception: h] *)
Definition try_except {A} (m : M A) (h : exn -> M A) : M A :=
  fun s =>
    match m s with
    | (Return a, s') => (Return a, s')
    | (Raise e, s') => h e s'
    end.

(** Runs [m] and hands its outcome over as a value; used for a [try] whose
    handler returns from the function. *)
Definition attempt {A} (m : M A) : M (outcome A) :=
  fun s => let '(o, s') := m s in (Return o, s').

Definition lift {A} (o : outcome A) : M A := fun s => (o, s).

(** An external call: the oracle sees the calls made so far, and the call is
    recorded whether it returns or raises. *)
Definition call {A} (ev : event) (oracle : list event -> outcome A) : M A :=
  fun s =>
    (oracle (trace s),
     {| trace := trace s ++ [ev];
        valid_context := valid_context s;
        debug := debug s |}).

Definition modify_debug (f : DebugInfo -> DebugInfo) : M unit :=
  fun s =>
    (Return tt,
     {| trace := trace s;
        valid_context := valid_context s;
        debug := f (debug s) |}).

(** [debug_info["total_retrieved"] = n] *)
Definition set_total_retrieved (n : nat) : M unit :=
  modify_debug (fun d =>
    {| total_retrieved := n;
       relevant_chunks := relevant_chunks d;
       chunk_scores := chunk_scores d;
       timestamp := timestamp d |}).

(** [debug_info["chunk_scores"].append(score)] *)
Definition append_score (score : string) : M unit :=
  modify_debug (fun d =>
    {| total_retrieved := total_retrieved d;
       relevant_chunks := relevant_chunks d;
       chunk_scores := chunk_scores d ++ [score];
       timestamp := timestamp d |}).

(** [debug_info["relevant_chunks"] += 1] *)
Definition incr_relevant_chunks : M unit :=
  modify_debug (fun d =>
    {| total_retrieved := total_retrieved d;
       relevant_chunks := relevant_chunks d + 1;
       chunk_scores := chunk_scores d;
       timestamp := timestamp d |}).

(** [valid_context.append(text)] *)
Definition append_valid_context (text : string) : M unit :=
  fun s =>
    (Return tt,
     {| trace := trace s;
        valid_context := valid_context s ++ [text];
        debug := debug s |}).

(** [for x in xs: body(x)] *)
Fixpoint for_each {A} (body : A -> M unit) (xs : list A) : M unit :=
  match xs with
  | [] => ret tt
  | x :: xs' => body x ;; for_each body xs'
  end.

(** ** main.py *)

Definition NOT_READY_ANSWER : string :=
  "System not ready. Please upload a PDF first.".

Definition REFUSAL_ANSWER : string :=
  "I'm sorry, but the provided document does not contain information relevant to your question. Please try rephrasing your question or upload a different document.".

Definition GENERATION_ERROR_ANSWER : string :=
  "An error occurred while generating the answer. Please try again.".

(** The separator of [formatted_context]: two newlines. *)
Definition SEP : string :=
  String (ascii_of_nat 10) (String (ascii_of_nat 10) EmptyString).

(** [retrieval_tool(query, k)], main.py 104-117. *)
Definition retrieval_tool (w : World) (query : string) (k : nat)
  : M (list Document) :=
  match vector_store w with
  | None => raise ValueError
  | Some vs => call (EvRetrieve query k) (fun tr => retriever_invoke vs tr query k)
  end.

(** The two statements that open both [try] bodies of the grading loops:
    the critic call and the lowercased score. *)
Definition critic_score (w : World) (question : string) (doc : Document)
  : M string :=
  grade <- call (EvCritic (page_content doc) question)
                (fun tr => critic_chain w tr (page_content doc) question) ;;
  lift (binary_score_lower grade).

(** Body of the first grading loop, main.py 190-208. *)
Definition grade_chunk (w : World) (question : string) (doc : Document)
  : M unit :=
  try_except
    (score <- critic_score w question doc ;;
     append_score score ;;
     if String.eqb score "yes"
     then (append_valid_context (page_content doc) ;; incr_relevant_chunks)
     else ret tt)
    (fun _ => append_score "error").

(** Body of the fallback grading loop, main.py 222-237: no [else], and the
    handler only logs. *)
Definition grade_extended_chunk (w : World) (question : string) (doc : Document)
  : M unit :=
  try_except
    (score <- critic_score w question doc ;;
     append_score score ;;
     if String.eqb score "yes"
     then (append_valid_context (page_content doc) ;; incr_relevant_chunks)
     else ret tt)
    (fun _ => ret tt).

(** Step 3, main.py 214-239.  [docs_extended[5:]] is [drop 5]. *)
Definition fallback_strategy (w : World) (question : string) : M unit :=
  fun s =>
    match valid_context s with
    | [] =>
        try_except
          (docs_extended <- retrieval_tool w question 10 ;;
           set_total_retrieved (length docs_extended) ;;
           for_each (grade_extended_chunk w question) (drop 5 docs_extended))
          (fun _ => ret tt) s
    | _ :: _ => (Return tt, s)
    end.

Definition make_result (text : string) (dbg : bool) : M Result :=
  fun s =>
    (Return {| answer := text;
               debug_info := if dbg then Some (debug s) else None |}, s).

(** Step 4, main.py 242-268. *)
Definition final_decision (w : World) (question : string) (dbg : bool)
  : M Result :=
  fun s =>
    match valid_context s with
    | [] => make_result REFUSAL_ANSWER dbg s
    | _ :: _ =>
        let formatted_context := String.concat SEP (valid_context s) in
        try_except
          (content <- call (EvGenerate formatted_context question)
                           (fun tr => generator_chain w tr formatted_context question) ;;
           make_result content dbg)
          (fun _ => make_result GENERATION_ERROR_ANSWER dbg) s
    end.

(** Steps 2 to 4, entered once the first retrieval has returned [docs]. *)
Definition reflect_and_answer (w : World) (question : string) (dbg : bool)
  (docs : list Document) : M Result :=
  for_each (grade_chunk w question) docs ;;
  fallback_strategy w question ;;
  final_decision w question dbg.

(** The body of [run_agentic_rag], main.py 173-268.  Only ValueError is
    caught around the first retrieval; any other exception leaves the
    function. *)
Definition agent (w : World) (question : string) (dbg : bool) : M Result :=
  r <- attempt (docs <- retrieval_tool w question 5 ;;
                set_total_retrieved (length docs) ;;
                ret docs) ;;
  match r with
  | Raise ValueError => make_result NOT_READY_ANSWER dbg
  | Raise e => raise e
  | Return docs => reflect_and_answer w question dbg docs
  end.

(** The locals of a fresh invocation, main.py 166-171 and 186. *)
Definition init_store (w : World) : Store :=
  {| trace := [];
     valid_context := [];
     debug := {| total_retrieved := 0;
                 relevant_chunks := 0;
                 chunk_scores := [];
                 timestamp := datetime_now w |} |}.

Definition run_agentic_rag (w : World) (question : string) (dbg : bool)
  : outcome Result * Store :=
  agent w question dbg (init_store w).

(** ** Reading the oracles *)

Definition critic_event (question : string) (doc : Document) : event :=
  EvCritic (page_content doc) question.

(** What the critic says of [doc] when asked after the calls [tr]: the
    lowercased score, or the exception of the call or of the score access. *)
Definition judge (w : World) (question : string) (tr : list event)
  (doc : Document) : outcome string :=
  match critic_chain w tr (page_content doc) question with
  | Return grade => binary_score_lower grade
  | Raise e => Raise e
  end.

Definition judged_yes (o : outcome string) : bool :=
  match o with
  | Return score => String.eqb score "yes"
  | Raise _ => false
  end.

(** The texts kept by a grading loop over [docs] that starts after [tr]. *)
Fixpoint relevant_texts (w : World) (question : string) (tr : list event)
  (docs : list Document) : list string :=
  match docs with
  | [] => []
  | doc :: docs' =>
      (if judged_yes (judge w question tr doc) then [page_content doc] else [])
      ++ relevant_texts w question (tr ++ [critic_event question doc]) docs'
  end.

(** The scores the first loop records: one per chunk. *)
Fixpoint first_scores (w : World) (question : string) (tr : list event)
  (docs : list Document) : list string :=
  match docs with
  | [] => []
  | doc :: docs' =>
      match judge w question tr doc with
      | Return score => score
      | Raise _ => "error"
      end :: first_scores w question (tr ++ [critic_event question doc]) docs'
  end.

(** The scores the fallback loop records: none for a failed grading. *)
Fixpoint extended_scores (w : World) (question : string) (tr : list event)
  (docs : list Document) : list string :=
  match docs with
  | [] => []
  | doc :: docs' =>
      match judge w question tr doc with
      | Return score => [score]
      | Raise _ => []
      end ++ extended_scores w question (tr ++ [critic_event question doc]) docs'
  end.

(** [list.count] *)
Definition count (x : string) (l : list string) : nat :=
  length (filter (fun y => y = x) l).

(** A small world for examples: an index of ten chunks c1..c10 ranked in
    that order, a critic that is told what to say of each text, a generator
    that echoes its context. *)
Module Example.

Definition chunk (text : string) : Document :=
  {| page_content := text; metadata := [] |}.

Definition ten : list Document :=
  chunk <$> ["c1"; "c2"; "c3"; "c4"; "c5"; "c6"; "c7"; "c8"; "c9"; "c10"].

(** top-k retrieval over a fixed ranking *)
Definition top_k (ranking : list Document) : FAISS :=
  {| retriever_invoke := fun _ _ k => Return (take k ranking) |}.

Definition says (score : string) : outcome grade_t :=
  Return (GDict {[ "binary_score" := VStr score ]}).

Definition world (index : option FAISS)
  (critic : string -> outcome grade_t)
  (generator : string -> outcome string) : World :=
  {| vector_store := index;
     critic_chain := fun _ context _ => critic context;
     generator_chain := fun _ context _ => generator context;
     datetime_now := "2024-01-01T00:00:00" |}.

(** Scenario A of the specification: only c8 is relevant. *)
Definition scenario_A : World :=
  world (Some (top_k ten))
        (fun text => if String.eqb text "c8" then says "yes" else says "no")
        (fun context => Return context).

(** No document has been uploaded. *)
Definition no_index : World :=
  world None (fun _ => says "yes") (fun context => Return context).

(** Scenario C of the specification: nothing is relevant. *)
Definition all_no : World :=
  world (Some (top_k ten)) (fun _ => says "no") (fun context => Return context).

(** A critic that answers outside yes/no for all chunks but the first. *)
Definition undecided : World :=
  world (Some (top_k ten))
        (fun text => if String.eqb text "c1" then says "yes" else says "Maybe")
        (fun context => Return context).

(** Nothing is relevant, and the grading call of c6 raises. *)
Definition critic_fails_on_c6 : World :=
  world (Some (top_k ten))
        (fun text =>
           if String.eqb text "c6" then Raise OtherException else says "no")
        (fun context => Return context).

(** Nothing is relevant, and the grading call of c2 raises. *)
Definition critic_fails_on_c2 : World :=
  world (Some (top_k ten))
        (fun text =>
           if String.eqb text "c2" then Raise OtherException else says "no")
        (fun context => Return context).

(** An index of three chunks only, none of them relevant. *)
Definition three_chunks : World :=
  world (Some (top_k (take 3 ten))) (fun _ => says "no")
        (fun context => Return context).

(** c2 and c4 are relevant. *)
Definition two_relevant : World :=
  world (Some (top_k ten))
        (fun text =>
           if String.eqb text "c2" || String.eqb text "c4"
           then says "yes" else says "no")
        (fun context => Return context).

(** An index whose retriever raises [e] at every call. *)
Definition broken_retriever (e : exn) : World :=
  world (Some {| retriever_invoke := fun _ _ _ => Raise e |})
        (fun _ => says "yes") (fun context => Return context).

(** The retriever answers the first pass and raises on the wider one. *)
Definition fallback_down : World :=
  world (Some {| retriever_invoke := fun _ _ k =>
                   if Nat.eqb k 5 then Return (take 5 ten)
                   else Raise OtherException |})
        (fun _ => says "no") (fun context => Return context).

(** A retriever that returns three chunks at first and ten when asked
    again, with nothing relevant. *)
Definition growing : World :=
  world (Some {| retriever_invoke := fun _ _ k =>
                   if Nat.eqb k 5 then Return (take 3 ten) else Return ten |})
        (fun _ => says "no") (fun context => Return context).

(** A retriever whose wider answer ranks c6 before c5, with nothing
    relevant. *)
Definition reordered : World :=
  world (Some {| retriever_invoke := fun _ _ k =>
                   if Nat.eqb k 5 then Return (take 5 ten)
                   else Return (chunk <$> ["c1"; "c2"; "c3"; "c4"; "c6";
                                           "c5"; "c7"; "c8"; "c9"; "c10"]) |})
        (fun _ => says "no") (fun context => Return context).

(** Scenario D of the specification: the generator call raises. *)
Definition generator_down : World :=
  world (Some (top_k ten)) (fun _ => says "Yes")
        (fun _ => Raise OtherException).

End Example.

Definition with_trace (tr : list event) (s : Store) : Store :=
  {| trace := tr; valid_context := valid_context s; debug := debug s |}.

(** The store once the first retrieval has returned [docs]. *)
Definition retrieved_store (w : World) (question : string)
  (docs : list Document) : Store :=
  {| trace := [EvRetrieve question 5];
     valid_context := [];
     debug := {| total_retrieved := length docs;
                 relevant_chunks := 0;
                 chunk_scores := [];
                 timestamp := datetime_now w |} |}.

(** The store at the end of the first grading loop. *)
Definition graded_store (w : World) (question : string)
  (docs : list Document) : Store :=
  (for_each (grade_chunk w question) docs (retrieved_store w question docs)).2.

(** The telemetry invariant, with the tag the code uses. *)
Definition telemetry_ok (s : Store) : Prop :=
  relevant_chunks (debug s) = count "yes" (chunk_scores (debug s))
  /\ length (valid_context s) = relevant_chunks (debug s).

(** The store the fallback pass ends in when its retrieval returned
    [docs_extended]. *)
Definition extended_store (w : World) (question : string)
  (docs_extended : list Document) (s : Store) : Store :=
  let tr := trace s ++ [EvRetrieve question 10] in
  let new_docs := drop 5 docs_extended in
  {| trace := tr ++ (critic_event question <$> new_docs);
     valid_context := valid_context s ++ relevant_texts w question tr new_docs;
     debug :=
       {| total_retrieved := length docs_extended;
          relevant_chunks :=
            relevant_chunks (debug s) +
            length (relevant_texts w question tr new_docs);
          chunk_scores :=
            chunk_scores (debug s) ++ extended_scores w question tr new_docs;
          timestamp := timestamp (debug s) |} |}.

(** The four ways through step 3, as a relation between the store before
    and the store after. *)
Inductive fallback_case (w : World) (question : string) (s : Store)
  : Store -> Prop :=
| FallbackSkipped :
    valid_context s <> [] ->
    fallback_case w question s s
| FallbackNotReady :
    valid_context s = [] ->
    vector_store w = None ->
    fallback_case w question s s
| FallbackFailed vs e :
    valid_context s = [] ->
    vector_store w = Some vs ->
    retriever_invoke vs (trace s) question 10 = Raise e ->
    fallback_case w question s
      (with_trace (trace s ++ [EvRetrieve question 10]) s)
| FallbackGraded vs docs_extended :
    valid_context s = [] ->
    vector_store w = Some vs ->
    retriever_invoke vs (trace s) question 10 = Return docs_extended ->
    fallback_case w question s (extended_store w question docs_extended s).

(** [score] is what the critic returned for some chunk graded in the
    run whose calls are [final]. *)
Definition graded_as (w : World) (question : string) (final : list event)
  (score : string) : Prop :=
  exists tr doc,
    (tr ++ [critic_event question doc]) `prefix_of` final
    /\ judge w question tr doc = Return score.

(** The scores of a store all come from the critic or are the sentinel. *)
Definition scores_ok (w : World) (question : string) (s : Store) : Prop :=
  forall score,
    score ∈ chunk_scores (debug s) ->
    score = "error" \/ graded_as w question (trace s) score.

(** The three tags the specification gives for [chunk_scores]. *)
Definition spec_tags : list string := ["relevant"; "not_relevant"; "error"].

(** The specification's reading of [total_retrieved]: the chunks of the
    first pass plus, when the fallback triggered and its retrieval
    succeeded, the chunks of the fallback pass. *)
Definition chunks_across_passes (w : World) (question : string) : nat :=
  match vector_store w with
  | None => 0
  | Some vs =>
      match retriever_invoke vs [] question 5 with
      | Raise _ => 0
      | Return docs =>
          let s1 := graded_store w question docs in
          length docs +
          match valid_context s1 with
          | [] =>
              match retriever_invoke vs (trace s1) question 10 with
              | Return docs_extended => length docs_extended
              | Raise _ => 0
              end
          | _ :: _ => 0
          end
      end
  end.

(** ** The HTTP layer of main.py *)

(** [str.endswith(suffix)] *)
Fixpoint endswith (s suffix : string) : bool :=
  if String.eqb s suffix then true
  else match s with
       | EmptyString => false
       | String _ s' => endswith s' suffix
       end.

(** The [detail] of an HTTPException: a fixed text, or a prefix followed by
    [str(e)] of the exception caught. *)
Inductive detail_t : Type :=
| DetailText (text : string)
| DetailStr (prefix : string) (e : exn).

(** What an endpoint hands to FastAPI: the returned body, a raised
    HTTPException, or another exception that left the endpoint unhandled. *)
Inductive response (A : Type) : Type :=
| Ok (body : A)
| HTTPException (status_code : nat) (detail : detail_t)
| Unhandled (e : exn).
Arguments Ok {A} body.
Arguments HTTPException {A} status_code detail.
Arguments Unhandled {A} e.

(** [class QueryRequest]; [debug] defaults to False. *)
Record QueryRequest : Type := {
  req_question : string;
  req_debug : bool
}.

(** [chat_endpoint(request)], main.py 316-332, with the calls it made.  The
    400 is raised before the [try]; inside it every exception of
    [run_agentic_rag] becomes a 500 with [str(e)] as detail. *)
Definition chat_endpoint (w : World) (request : QueryRequest)
  : response Result * list event :=
  match vector_store w with
  | None => (HTTPException 400 (DetailText "Please upload a PDF first."), [])
  | Some _ =>
      match run_agentic_rag w (req_question request) (req_debug request) with
      | (Return result, s) => (Ok result, trace s)
      | (Raise e, s) => (HTTPException 500 (DetailStr "" e), trace s)
      end
  end.

(** The dict of [health_check()], main.py 334-340. *)
Record Health : Type := {
  status : string;
  vector_store_ready : bool
}.

Definition health_check (w : World) : Health :=
  {| status := "healthy";
     vector_store_ready :=
       match vector_store w with Some _ => true | None => false end |}.

(** ** Ingestion and the files of the server *)

(** What a path of the file system holds: the bytes of a regular file, the
    directory of an index written by [save_local], or another directory
    (for instance what a failed [save_local] left behind). *)
Inductive file_t : Type :=
| FileBytes (content : string)
| FaissIndex (saved : FAISS)
| Directory.

Definition is_directory (held : file_t) : bool :=
  match held with
  | FileBytes _ => false
  | FaissIndex _ | Directory => true
  end.

(** The mutable state of the server process: the global [vector_store] and
    the entries of its working directory.  An entry is keyed by the path as
    it is written: two spellings of one file (through a separator, [..], a
    link, or letter case on a file system that ignores it) are not
    identified, so the files speak for plain names of the working
    directory, which is what [plain_name] asks of a name. *)
Record Server : Type := {
  srv_vector_store : option FAISS;
  srv_files : gmap string file_t
}.

Definition vector_store_path : string := "faiss_index".


(** The library calls of ingestion, each of which may raise. *)
Record Libraries : Type := {
  (** [PyPDFLoader(file_path).load()], given what the path holds *)
  loader_load : option file_t -> outcome (list Document);
  (** [text_splitter.split_documents(docs)] *)
  split_documents : list Document -> outcome (list Document);
  (** [FAISS.from_documents(documents=splits, embedding=embeddings)] *)
  from_documents : list Document -> outcome FAISS;
  (** whether [vector_store.save_local(vector_store_path)] succeeds *)
  save_local : FAISS -> outcome unit;
  (** what a [save_local] that raised leaves at [vector_store_path], given
      what the path held: nothing new, or part of the index *)
  save_local_leaves : FAISS -> option file_t -> option file_t;
  (** [FAISS.load_local(vector_store_path, embeddings, ...)], given what
      the path holds *)
  load_local : file_t -> outcome FAISS;
  (** whether [open(path, "wb")] succeeds *)
  open_wb : string -> outcome unit
}.

Definition SM (A : Type) : Type := Server -> outcome A * Server.

Definition sbind {A B} (m : SM A) (f : A -> SM B) : SM B :=
  fun srv =>
    match m srv with
    | (Return a, srv') => f a srv'
    | (Raise e, srv') => (Raise e, srv')
    end.

Notation "'let*' x := c 'in' k" := (sbind c (fun x => k))
  (at level 100, x name, c at next level, right associativity).

(** A library call that does not touch the state. *)
Definition pure_call {A} (o : outcome A) : SM A := fun srv => (o, srv).

(** [global vector_store; vector_store = vs] *)
Definition set_vector_store (vs : FAISS) : SM unit :=
  fun srv =>
    (Return tt,
     {| srv_vector_store := Some vs; srv_files := srv_files srv |}).

(** Writing [content] at [path], replacing what was there. *)
Definition write_file (path : string) (content : file_t) : SM unit :=
  fun srv =>
    (Return tt,
     {| srv_vector_store := srv_vector_store srv;
        srv_files := <[path := content]> (srv_files srv) |}).

(** Making [path] hold [held], or nothing. *)
Definition set_path (path : string) (held : option file_t) : SM unit :=
  fun srv =>
    (Return tt,
     {| srv_vector_store := srv_vector_store srv;
        srv_files :=
          match held with
          | Some content => <[path := content]> (srv_files srv)
          | None => delete path (srv_files srv)
          end |}).

(** [os.remove(path)]: removes a regular file, and raises on a directory
    (IsADirectoryError, PermissionError) and on a missing path
    (FileNotFoundError). *)
Definition os_remove (path : string) : SM unit :=
  fun srv =>
    match srv_files srv !! path with
    | Some (FileBytes _) =>
        (Return tt,
         {| srv_vector_store := srv_vector_store srv;
            srv_files := delete path (srv_files srv) |})
    | Some (FaissIndex _) | Some Directory | None => (Raise OtherException, srv)
    end.

(** [os.path.exists(path)] *)
Definition os_path_exists (path : string) (srv : Server) : bool :=
  match srv_files srv !! path with Some _ => true | None => false end.

(** [open(path, "wb")]: raises on a directory (IsADirectoryError);
    otherwise the system decides, and a success creates or truncates the
    file. *)
Definition open_for_writing (lib : Libraries) (path : string) : SM unit :=
  fun srv =>
    match srv_files srv !! path with
    | Some (FaissIndex _) | Some Directory => (Raise OtherException, srv)
    | Some (FileBytes _) | None =>
        (let* _ := pure_call (open_wb lib path) in
         write_file path (FileBytes "")) srv
    end.

(** [vector_store.save_local(vector_store_path)]: a success leaves the
    index at the path; a failure leaves there what the library had written
    by then, and raises. *)
Definition save_index (lib : Libraries) (vs : FAISS) : SM unit :=
  fun srv =>
    match save_local lib vs with
    | Return _ => write_file vector_store_path (FaissIndex vs) srv
    | Raise e =>
        (let* _ := set_path vector_store_path
                     (save_local_leaves lib vs
                        (srv_files srv !! vector_store_path)) in
         pure_call (Raise e)) srv
    end.

(** [ingest_pdf(file_path)], main.py 53-84.  The handler logs and raises
    again, so an exception leaves with the state as it was at the [raise]:
    the global is assigned before [save_local] is called. *)
Definition ingest_pdf (lib : Libraries) (file_path : string) : SM nat :=
  fun srv =>
    (let* docs := pure_call (loader_load lib (srv_files srv !! file_path)) in
     let* splits := pure_call (split_documents lib docs) in
     let* vs := pure_call (from_documents lib splits) in
     let* _ := set_vector_store vs in
     let* _ := save_index lib vs in
     pure_call (Return (length splits))) srv.

(** [load_vector_store()], main.py 87-101. *)
Definition load_vector_store (lib : Libraries) (srv : Server)
  : bool * Server :=
  match srv_files srv !! vector_store_path with
  | Some saved =>
      match load_local lib saved with
      | Return vs =>
          (true, {| srv_vector_store := Some vs; srv_files := srv_files srv |})
      | Raise _ => (false, srv)
      end
  | None => (false, srv)
  end.

(** [UploadFile]: the name given by the client and what [await file.read()]
    yields. *)
Record UploadFile : Type := {
  filename : string;
  read : outcome string
}.

(** The dict returned by a successful upload. *)
Record UploadResult : Type := {
  message : string;
  chunks_created : nat
}.

Definition temp_filename_of (file : UploadFile) : string :=
  "temp_" +:+ filename file.

(** The [try] body of [upload_document], main.py 292-308.  [open] creates
    or truncates the file before the upload is read. *)
Definition save_and_ingest (lib : Libraries) (file : UploadFile) : SM nat :=
  let temp_filename := temp_filename_of file in
  let* _ := open_for_writing lib temp_filename in
  let* content := pure_call (read file) in
  let* _ := write_file temp_filename (FileBytes content) in
  let* num_chunks := ingest_pdf lib temp_filename in
  let* _ := os_remove temp_filename in
  pure_call (Return num_chunks).

(** [upload_document(file)], main.py 283-314.  An [os.remove] that raises
    inside the handler leaves the endpoint in place of the HTTPException. *)
Definition upload_document (lib : Libraries) (file : UploadFile)
  (srv : Server) : response UploadResult * Server :=
  if negb (endswith (filename file) ".pdf")
  then (HTTPException 400 (DetailText "Only PDF files are supported"), srv)
  else
    let temp_filename := temp_filename_of file in
    match save_and_ingest lib file srv with
    | (Return num_chunks, srv') =>
        (Ok {| message := "PDF processed and vector store ready.";
               chunks_created := num_chunks |}, srv')
    | (Raise e, srv') =>
        if os_path_exists temp_filename srv'
        then
          match os_remove temp_filename srv' with
          | (Return _, srv'') =>
              (HTTPException 500 (DetailStr "Error processing PDF: " e), srv'')
          | (Raise e', srv'') => (Unhandled e', srv'')
          end
        else (HTTPException 500 (DetailStr "Error processing PDF: " e), srv')
    end.

(** The world a query meets on a server: the collaborators of [w] with the
    server's global [vector_store]. *)
Definition world_on (w : World) (srv : Server) : World :=
  {| vector_store := srv_vector_store srv;
     critic_chain := critic_chain w;
     generator_chain := generator_chain w;
     datetime_now := datetime_now w |}.

(** ** client.py *)

(** What [requests.post(...)] returned: the status, [response.text], and
    [response.json()['answer']], which raises on a body without it. *)
Record HttpResponse : Type := {
  http_status : nat;
  http_text : string;
  json_answer : outcome string
}.

(** The lines [chat_loop] prints for a question. *)
Inductive printed : Type :=
| PrintAgent (answer : string)
| PrintError (text : string)
| PrintConnectionError (e : exn).

(** How [chat_loop] ends: by [break], or by the EOFError of [input()] when
    no line is left. *)
Inductive loop_end : Type :=
| Quit
| EndOfInput.

Record ChatLog : Type := {
  posted : list string;
  printed_lines : list printed
}.

(** [question.lower() in ["exit", "quit"]] *)
Definition is_quit (question : string) : bool :=
  String.eqb (lower question) "exit" || String.eqb (lower question) "quit".

(** One question: the [try] of client.py 28-35. *)
Definition ask (post : list string -> string -> outcome HttpResponse)
  (log : ChatLog) (question : string) : printed :=
  match post (posted log) question with
  | Return r =>
      if Nat.eqb (http_status r) 200
      then match json_answer r with
           | Return answer => PrintAgent answer
           | Raise e => PrintConnectionError e
           end
      else PrintError (http_text r)
  | Raise e => PrintConnectionError e
  end.

(** The [while True] of [chat_loop], client.py 23-35, over the lines the
    user types; [post] is the server, which sees the questions posted
    before. *)
Fixpoint chat_loop (post : list string -> string -> outcome HttpResponse)
  (inputs : list string) (log : ChatLog) : loop_end * ChatLog :=
  match inputs with
  | [] => (EndOfInput, log)
  | question :: inputs' =>
      if is_quit question then (Quit, log)
      else
        chat_loop post inputs'
          {| posted := posted log ++ [question];
             printed_lines := printed_lines log ++ [ask post log question] |}
  end.

(** A small server for examples: a loader that yields one page holding
    the bytes of the file, a splitter that keeps the pages, an index built
    over the chunks, and a [load_local] that reads back what was saved. *)
Module ExampleServer.

Definition libraries (save : outcome unit) : Libraries :=
  {| loader_load := fun held =>
       match held with
       | Some (FileBytes content) => Return [Example.chunk content]
       | _ => Raise OtherException
       end;
     split_documents := fun docs => Return docs;
     from_documents := fun splits =>
       match splits with
       | [] => Raise OtherException
       | _ :: _ => Return (Example.top_k splits)
       end;
     save_local := fun _ => save;
     save_local_leaves := fun _ _ => Some Directory;
     load_local := fun held =>
       match held with
       | FaissIndex vs => Return vs
       | FileBytes _ | Directory => Raise OtherException
       end;
     open_wb := fun _ => Return tt |}.

Definition report : UploadFile :=
  {| filename := "report.pdf"; read := Return "page one" |}.

Definition fresh : Server :=
  {| srv_vector_store := None; srv_files := ∅ |}.


(** A server with a directory where the temporary file would go. *)
Definition blocked : Server :=
  {| srv_vector_store := None;
     srv_files := {[ "temp_report.pdf" := Directory ]} |}.

End ExampleServer.

(** ** Equations of the loop bodies *)

Lemma critic_score_eq w question doc s :
  critic_score w question doc s =
  (judge w question (trace s) doc,
   with_trace (trace s ++ [critic_event question doc]) s).
Proof.
  unfold critic_score, bind, call, lift, judge, with_trace, critic_event.
  simpl. destruct (critic_chain w (trace s) (page_content doc) question); reflexivity.
Qed.

(** The store after one iteration of the first loop. *)
Lemma grade_chunk_eq w question doc s :
  grade_chunk w question doc s =
  (Return tt,
   {| trace := trace s ++ [critic_event question doc];
      valid_context :=
        valid_context s ++
        (if judged_yes (judge w question (trace s) doc)
         then [page_content doc] else []);
      debug :=
        {| total_retrieved := total_retrieved (debug s);
           relevant_chunks :=
             relevant_chunks (debug s) +
             (if judged_yes (judge w question (trace s) doc) then 1 else 0);
           chunk_scores :=
             chunk_scores (debug s) ++
             [match judge w question (trace s) doc with
              | Return score => score
              | Raise _ => "error"
              end];
           timestamp := timestamp (debug s) |} |}).
Proof.
  unfold grade_chunk, try_except, bind. rewrite critic_score_eq.
  destruct (judge w question (trace s) doc) as [score|e]; simpl.
  - destruct (String.eqb score "yes"); simpl.
    + reflexivity.
    + rewrite app_nil_r, Nat.add_0_r. reflexivity.
  - rewrite app_nil_r, Nat.add_0_r. reflexivity.
Qed.

(** The store after one iteration of the fallback loop. *)
Lemma grade_extended_chunk_eq w question doc s :
  grade_extended_chunk w question doc s =
  (Return tt,
   {| trace := trace s ++ [critic_event question doc];
      valid_context :=
        valid_context s ++
        (if judged_yes (judge w question (trace s) doc)
         then [page_content doc] else []);
      debug :=
        {| total_retrieved := total_retrieved (debug s);
           relevant_chunks :=
             relevant_chunks (debug s) +
             (if judged_yes (judge w question (trace s) doc) then 1 else 0);
           chunk_scores :=
             chunk_scores (debug s) ++
             match judge w question (trace s) doc with
             | Return score => [score]
             | Raise _ => []
             end;
           timestamp := timestamp (debug s) |} |}).
Proof.
  unfold grade_extended_chunk, try_except, bind. rewrite critic_score_eq.
  destruct (judge w question (trace s) doc) as [score|e]; simpl.
  - destruct (String.eqb score "yes"); simpl.
    + reflexivity.
    + rewrite app_nil_r, Nat.add_0_r. reflexivity.
  - rewrite !app_nil_r, Nat.add_0_r. destruct s as [tr vc [a b c d]]; reflexivity.
Qed.

(** ** Equations of the loops *)

Lemma for_each_grade_chunk w question docs : forall s,
  for_each (grade_chunk w question) docs s =
  (Return tt,
   {| trace := trace s ++ (critic_event question <$> docs);
      valid_context :=
        valid_context s ++ relevant_texts w question (trace s) docs;
      debug :=
        {| total_retrieved := total_retrieved (debug s);
           relevant_chunks :=
             relevant_chunks (debug s) +
             length (relevant_texts w question (trace s) docs);
           chunk_scores :=
             chunk_scores (debug s) ++ first_scores w question (trace s) docs;
           timestamp := timestamp (debug s) |} |}).
Proof.
  induction docs as [|doc docs IH]; intros s.
  - simpl. unfold ret. rewrite !app_nil_r, Nat.add_0_r.
    destruct s as [tr vc [a b c d]]; reflexivity.
  - cbn [for_each]. unfold bind at 1. rewrite grade_chunk_eq, IH.
    cbn [trace valid_context debug total_retrieved relevant_chunks
         chunk_scores timestamp relevant_texts first_scores fmap list_fmap].
    rewrite <- !app_assoc, length_app, <- Nat.add_assoc.
    destruct (judged_yes (judge w question (trace s) doc)); reflexivity.
Qed.

Lemma for_each_grade_extended_chunk w question docs : forall s,
  for_each (grade_extended_chunk w question) docs s =
  (Return tt,
   {| trace := trace s ++ (critic_event question <$> docs);
      valid_context :=
        valid_context s ++ relevant_texts w question (trace s) docs;
      debug :=
        {| total_retrieved := total_retrieved (debug s);
           relevant_chunks :=
             relevant_chunks (debug s) +
             length (relevant_texts w question (trace s) docs);
           chunk_scores :=
             chunk_scores (debug s) ++ extended_scores w question (trace s) docs;
           timestamp := timestamp (debug s) |} |}).
Proof.
  induction docs as [|doc docs IH]; intros s.
  - simpl. unfold ret. rewrite !app_nil_r, Nat.add_0_r.
    destruct s as [tr vc [a b c d]]; reflexivity.
  - cbn [for_each]. unfold bind at 1. rewrite grade_extended_chunk_eq, IH.
    cbn [trace valid_context debug total_retrieved relevant_chunks
         chunk_scores timestamp relevant_texts extended_scores fmap list_fmap].
    rewrite <- !app_assoc, length_app, <- Nat.add_assoc.
    destruct (judged_yes (judge w question (trace s) doc)); reflexivity.
Qed.

(** ** Equations of the stages *)

Lemma graded_store_eq w question docs :
  graded_store w question docs =
  {| trace := EvRetrieve question 5 :: (critic_event question <$> docs);
     valid_context := relevant_texts w question [EvRetrieve question 5] docs;
     debug :=
       {| total_retrieved := length docs;
          relevant_chunks :=
            length (relevant_texts w question [EvRetrieve question 5] docs);
          chunk_scores := first_scores w question [EvRetrieve question 5] docs;
          timestamp := datetime_now w |} |}.
Proof.
  unfold graded_store. rewrite for_each_grade_chunk. reflexivity.
Qed.

Lemma fallback_strategy_cases w question s :
  exists s',
    fallback_strategy w question s = (Return tt, s')
    /\ fallback_case w question s s'.
Proof.
  unfold fallback_strategy.
  destruct (valid_context s) as [|text texts] eqn:Hvc.
  - unfold try_except, bind, retrieval_tool.
    destruct (vector_store w) as [vs|] eqn:Hvs.
    + unfold call.
      destruct (retriever_invoke vs (trace s) question 10)
        as [docs_extended|e] eqn:Hret.
      * unfold set_total_retrieved, modify_debug.
        rewrite for_each_grade_extended_chunk. simpl.
        eexists; split; [reflexivity|].
        replace (Build_Store _ _ _)
          with (extended_store w question docs_extended s).
        -- eapply FallbackGraded; eauto.
        -- reflexivity.
      * eexists; split; [reflexivity|].
        eapply FallbackFailed; eauto.
    + eexists; split; [reflexivity|]. apply FallbackNotReady; auto.
  - eexists; split; [reflexivity|]. apply FallbackSkipped. congruence.
Qed.

Lemma final_decision_refusal w question dbg s :
  valid_context s = [] ->
  final_decision w question dbg s =
  (Return {| answer := REFUSAL_ANSWER;
             debug_info := if dbg then Some (debug s) else None |}, s).
Proof. intros H. unfold final_decision. rewrite H. reflexivity. Qed.

Lemma final_decision_generate w question dbg s :
  valid_context s <> [] ->
  final_decision w question dbg s =
  let context := String.concat SEP (valid_context s) in
  (Return {| answer :=
               match generator_chain w (trace s) context question with
               | Return content => content
               | Raise _ => GENERATION_ERROR_ANSWER
               end;
             debug_info := if dbg then Some (debug s) else None |},
   with_trace (trace s ++ [EvGenerate context question]) s).
Proof.
  intros H. unfold final_decision.
  destruct (valid_context s) as [|text texts] eqn:Hvc; [congruence|].
  unfold try_except, bind, call, make_result, with_trace. simpl. rewrite Hvc.
  destruct (generator_chain w (trace s) _ question); reflexivity.
Qed.

Lemma run_not_ready w question dbg :
  vector_store w = None ->
  run_agentic_rag w question dbg =
  (Return {| answer := NOT_READY_ANSWER;
             debug_info := if dbg then Some (debug (init_store w)) else None |},
   init_store w).
Proof.
  intros H. unfold run_agentic_rag, agent, bind, attempt, retrieval_tool.
  rewrite H. reflexivity.
Qed.

Lemma run_retrieval_raises w question dbg vs e :
  vector_store w = Some vs ->
  retriever_invoke vs [] question 5 = Raise e ->
  run_agentic_rag w question dbg =
  (match e with
   | ValueError =>
       Return {| answer := NOT_READY_ANSWER;
                 debug_info :=
                   if dbg then Some (debug (init_store w)) else None |}
   | _ => Raise e
   end,
   with_trace [EvRetrieve question 5] (init_store w)).
Proof.
  intros Hvs Hret.
  unfold run_agentic_rag, agent, bind, attempt, retrieval_tool, call.
  rewrite Hvs. simpl. rewrite Hret. destruct e; reflexivity.
Qed.

Lemma run_retrieved w question dbg vs docs :
  vector_store w = Some vs ->
  retriever_invoke vs [] question 5 = Return docs ->
  run_agentic_rag w question dbg =
  (fallback_strategy w question ;; final_decision w question dbg)
    (graded_store w question docs).
Proof.
  intros Hvs Hret.
  unfold run_agentic_rag, agent, bind at 1, attempt, retrieval_tool.
  rewrite Hvs. unfold bind at 1, call. simpl. rewrite Hret.
  unfold bind at 1, set_total_retrieved, modify_debug, ret. simpl.
  unfold reflect_and_answer, bind at 1, graded_store, retrieved_store.
  rewrite !for_each_grade_chunk. reflexivity.
Qed.

Lemma run_graded w question dbg vs docs :
  vector_store w = Some vs ->
  retriever_invoke vs [] question 5 = Return docs ->
  exists s2,
    fallback_case w question (graded_store w question docs) s2
    /\ run_agentic_rag w question dbg = final_decision w question dbg s2.
Proof.
  intros Hvs Hret. rewrite (run_retrieved _ _ _ _ _ Hvs Hret).
  destruct (fallback_strategy_cases w question (graded_store w question docs))
    as (s2 & Hfb & Hcase).
  exists s2. split; [exact Hcase|]. unfold bind. rewrite Hfb. reflexivity.
Qed.

(** Splits a goal about [run_agentic_rag w question dbg] along the three
    outcomes of the first retrieval. *)
Ltac run_cases w question dbg :=
  let vs := fresh "vs" in
  let Hvs := fresh "Hvs" in
  let docs := fresh "docs" in
  let e := fresh "e" in
  let Hret := fresh "Hret" in
  destruct (vector_store w) as [vs|] eqn:Hvs;
  [ destruct (retriever_invoke vs [] question 5) as [docs|e] eqn:Hret;
    [ | rewrite (run_retrieval_raises w question dbg vs e Hvs Hret) in * ]
  | rewrite (run_not_ready w question dbg Hvs) in * ].

(** ** Generator events *)

Lemma filter_generate_critic question docs :
  List.filter is_generate (critic_event question <$> docs) = [].
Proof. induction docs as [|doc docs IH]; [reflexivity|exact IH]. Qed.

Lemma graded_store_no_generate w question docs :
  List.filter is_generate (trace (graded_store w question docs)) = [].
Proof.
  rewrite graded_store_eq. simpl. apply filter_generate_critic.
Qed.

Lemma fallback_case_generate w question s s' :
  fallback_case w question s s' ->
  List.filter is_generate (trace s') = List.filter is_generate (trace s).
Proof.
  intros H. inversion H; subst; simpl; try reflexivity.
  - rewrite List.filter_app. simpl. apply app_nil_r.
  - rewrite !List.filter_app, filter_generate_critic. simpl.
    rewrite !app_nil_r. reflexivity.
Qed.

Lemma final_decision_store w question dbg s :
  valid_context (final_decision w question dbg s).2 = valid_context s
  /\ debug (final_decision w question dbg s).2 = debug s.
Proof.
  destruct (valid_context s) as [|text texts] eqn:Hvc.
  - rewrite final_decision_refusal by exact Hvc. simpl. auto.
  - rewrite final_decision_generate by congruence. simpl. auto.
Qed.

Lemma generate_in_filter (tr : list event) context question :
  EvGenerate context question ∈ tr ->
  List.filter is_generate tr <> [].
Proof.
  intros Hin Hnil. apply list_elem_of_In in Hin.
  assert (Hf : In (EvGenerate context question) (List.filter is_generate tr)).
  { apply List.filter_In. split; [exact Hin|reflexivity]. }
  rewrite Hnil in Hf. destruct Hf.
Qed.

(** The generator events of a whole run, read off the final store. *)
Lemma run_generate_events w question dbg :
  List.filter is_generate (trace (run_agentic_rag w question dbg).2) =
  match valid_context (run_agentic_rag w question dbg).2 with
  | [] => []
  | _ :: _ =>
      [EvGenerate
         (String.concat SEP (valid_context (run_agentic_rag w question dbg).2))
         question]
  end.
Proof.
  run_cases w question dbg; try reflexivity.
  destruct (run_graded w question dbg vs docs Hvs Hret) as (s2 & Hcase & ->).
  pose proof (fallback_case_generate _ _ _ _ Hcase) as Hgen.
  rewrite graded_store_no_generate in Hgen.
  destruct (valid_context s2) as [|text texts] eqn:Hvc.
  - rewrite final_decision_refusal by exact Hvc. simpl. rewrite Hvc. exact Hgen.
  - rewrite final_decision_generate by congruence. simpl.
    rewrite List.filter_app, Hgen, Hvc. reflexivity.
Qed.

(** ** The not-ready path *)

(** C4.  With no index built ([vector_store] is None), [run_agentic_rag]
    returns the fixed "System not ready" answer, makes no external call at
    all (no retrieval, no critic, no generator), and its telemetry, attached
    when [debug] is set, holds the defaults: 0 retrieved, 0 relevant, no
    scores. *)
Theorem not_ready_short_circuits w question dbg :
  vector_store w = None ->
  (run_agentic_rag w question dbg).1 =
    Return {| answer := NOT_READY_ANSWER;
              debug_info :=
                if dbg
                then Some {| total_retrieved := 0;
                             relevant_chunks := 0;
                             chunk_scores := [];
                             timestamp := datetime_now w |}
                else None |}
  /\ trace (run_agentic_rag w question dbg).2 = [].
Proof.
  intros Hvs. rewrite (run_not_ready w question dbg Hvs). split; reflexivity.
Qed.

Lemma not_ready_short_circuits_witness :
  (run_agentic_rag Example.no_index "what is X?" false).1 =
    Return {| answer := NOT_READY_ANSWER; debug_info := None |}
  /\ trace (run_agentic_rag Example.no_index "what is X?" false).2 = [].
Proof.
  apply (not_ready_short_circuits Example.no_index "what is X?" false).
  reflexivity.
Defined.

(** ** The generator *)

(** C3.  In every run the generator is called at most once; a generator
    call only occurs when the accumulated [valid_context] is not empty; and
    when grading took place and [valid_context] is empty at the end of both
    passes, there is no generator call and the answer is the fixed
    refusal. *)
Theorem generator_called_at_most_once w question dbg :
  length (List.filter is_generate (trace (run_agentic_rag w question dbg).2)) <= 1
  /\ (forall context question',
        EvGenerate context question' ∈ trace (run_agentic_rag w question dbg).2 ->
        valid_context (run_agentic_rag w question dbg).2 <> [])
  /\ (forall vs docs,
        vector_store w = Some vs ->
        retriever_invoke vs [] question 5 = Return docs ->
        valid_context (run_agentic_rag w question dbg).2 = [] ->
        List.filter is_generate (trace (run_agentic_rag w question dbg).2) = []
        /\ (run_agentic_rag w question dbg).1 =
           Return {| answer := REFUSAL_ANSWER;
                     debug_info :=
                       if dbg
                       then Some (debug (run_agentic_rag w question dbg).2)
                       else None |}).
Proof.
  pose proof (run_generate_events w question dbg) as Hgen.
  split; [|split].
  - rewrite Hgen.
    destruct (valid_context (run_agentic_rag w question dbg).2); simpl; lia.
  - intros context question' Hin Hvc.
    apply generate_in_filter in Hin. rewrite Hgen, Hvc in Hin. congruence.
  - intros vs docs Hvs Hret Hvc. split.
    + rewrite Hgen, Hvc. reflexivity.
    + destruct (run_graded w question dbg vs docs Hvs Hret) as (s2 & _ & Hrun).
      rewrite Hrun in *.
      destruct (final_decision_store w question dbg s2) as [Hvc2 Hdbg2].
      rewrite Hdbg2. rewrite Hvc2 in Hvc.
      rewrite final_decision_refusal by exact Hvc. reflexivity.
Qed.

Lemma generator_called_at_most_once_witness :
  List.filter is_generate
    (trace (run_agentic_rag Example.all_no "q" false).2) = []
  /\ (run_agentic_rag Example.all_no "q" false).1 =
     Return {| answer := REFUSAL_ANSWER; debug_info := None |}.
Proof.
  apply (proj2 (proj2 (generator_called_at_most_once Example.all_no "q" false))
           (Example.top_k Example.ten) (take 5 Example.ten));
    vm_compute; reflexivity.
Defined.

(** C6.  When the generator call of a run raises, the run still returns:
    the answer is the fixed generation-error message and the telemetry is
    attached when [debug] is set. *)
Theorem generation_failure_is_answered w question dbg tr context e :
  trace (run_agentic_rag w question dbg).2 = tr ++ [EvGenerate context question] ->
  generator_chain w tr context question = Raise e ->
  (run_agentic_rag w question dbg).1 =
    Return {| answer := GENERATION_ERROR_ANSWER;
              debug_info :=
                if dbg
                then Some (debug (run_agentic_rag w question dbg).2)
                else None |}.
Proof.
  intros Htr Hgen.
  assert (Hin : EvGenerate context question
                  ∈ trace (run_agentic_rag w question dbg).2).
  { rewrite Htr. apply list_elem_of_In, in_or_app. right. left. reflexivity. }
  apply generate_in_filter in Hin.
  revert Htr Hin. run_cases w question dbg; simpl; try congruence.
  destruct (run_graded w question dbg vs docs Hvs Hret) as (s2 & Hcase & ->).
  pose proof (fallback_case_generate _ _ _ _ Hcase) as Hno.
  rewrite graded_store_no_generate in Hno.
  destruct (valid_context s2) as [|text texts] eqn:Hvc.
  - rewrite final_decision_refusal by exact Hvc. simpl. congruence.
  - rewrite final_decision_generate by congruence. simpl. intros Htr _.
    apply app_inj_tail in Htr. destruct Htr as [<- Hev].
    injection Hev as <-. rewrite Hgen. reflexivity.
Qed.

Lemma generation_failure_is_answered_witness :
  (run_agentic_rag Example.generator_down "q" false).1 =
    Return {| answer := GENERATION_ERROR_ANSWER; debug_info := None |}.
Proof.
  apply (generation_failure_is_answered Example.generator_down "q" false
           (EvRetrieve "q" 5
              :: (critic_event "q" <$> take 5 Example.ten))
           (String.concat SEP ["c1"; "c2"; "c3"; "c4"; "c5"])
           OtherException);
    vm_compute; reflexivity.
Defined.

(** An exception leaves [run_agentic_rag] only from the first retrieval,
    and is never a ValueError. *)
Lemma run_raises_only_from_first_retrieval w question dbg e :
  (run_agentic_rag w question dbg).1 = Raise e ->
  e <> ValueError
  /\ trace (run_agentic_rag w question dbg).2 = [EvRetrieve question 5]
  /\ exists vs,
       vector_store w = Some vs
       /\ retriever_invoke vs [] question 5 = Raise e.
Proof.
  run_cases w question dbg; simpl.
  - destruct (run_graded w question dbg vs docs Hvs Hret) as (s2 & _ & ->).
    destruct (valid_context s2) as [|text texts] eqn:Hvc.
    + rewrite final_decision_refusal by exact Hvc. discriminate.
    + rewrite final_decision_generate by congruence. discriminate.
  - destruct e0; intros H; try discriminate; injection H as <-;
      (split; [discriminate|split; [reflexivity|eauto]]).
  - discriminate.
Qed.

(** ** The telemetry invariant *)

Lemma count_app x (l1 l2 : list string) :
  count x (l1 ++ l2) = count x l1 + count x l2.
Proof. unfold count. rewrite filter_app, length_app. reflexivity. Qed.

Lemma count_cons x y (l : list string) :
  count x (y :: l) = (if String.eqb y x then 1 else 0) + count x l.
Proof.
  unfold count. rewrite filter_cons.
  destruct (String.eqb_spec y x) as [Heq|Hne]; case_decide; try congruence;
    reflexivity.
Qed.

Lemma count_first_scores w question docs : forall tr,
  count "yes" (first_scores w question tr docs) =
  length (relevant_texts w question tr docs).
Proof.
  induction docs as [|doc docs IH]; intros tr; [reflexivity|].
  cbn [first_scores relevant_texts]. rewrite count_cons, length_app, IH.
  destruct (judge w question tr doc) as [score|e]; simpl.
  - destruct (String.eqb score "yes"); reflexivity.
  - reflexivity.
Qed.

Lemma count_extended_scores w question docs : forall tr,
  count "yes" (extended_scores w question tr docs) =
  length (relevant_texts w question tr docs).
Proof.
  induction docs as [|doc docs IH]; intros tr; [reflexivity|].
  cbn [extended_scores relevant_texts]. rewrite count_app, length_app, IH.
  destruct (judge w question tr doc) as [score|e]; simpl.
  - rewrite count_cons. destruct (String.eqb score "yes"); reflexivity.
  - reflexivity.
Qed.

Lemma telemetry_ok_init w : telemetry_ok (init_store w).
Proof. split; reflexivity. Qed.

Lemma telemetry_ok_graded w question docs :
  telemetry_ok (graded_store w question docs).
Proof.
  rewrite graded_store_eq. split; simpl.
  - symmetry. apply count_first_scores.
  - reflexivity.
Qed.

Lemma telemetry_ok_fallback w question s s' :
  fallback_case w question s s' -> telemetry_ok s -> telemetry_ok s'.
Proof.
  intros Hcase [Hcount Hlen]. inversion Hcase; subst; try (split; assumption).
  split; simpl.
  - rewrite count_app, count_extended_scores. lia.
  - rewrite length_app. lia.
Qed.

Lemma run_telemetry_ok w question dbg :
  telemetry_ok (run_agentic_rag w question dbg).2.
Proof.
  run_cases w question dbg; try apply telemetry_ok_init.
  destruct (run_graded w question dbg vs docs Hvs Hret) as (s2 & Hcase & ->).
  pose proof (telemetry_ok_fallback _ _ _ _ Hcase
                (telemetry_ok_graded w question docs)) as [Hcount Hlen].
  destruct (final_decision_store w question dbg s2) as [Hvc Hdbg].
  split; rewrite ?Hvc, Hdbg; assumption.
Qed.

(** The telemetry of a returned result is the final [debug_info]. *)
Lemma run_debug_info w question dbg r :
  (run_agentic_rag w question dbg).1 = Return r ->
  debug_info r =
  if dbg then Some (debug (run_agentic_rag w question dbg).2) else None.
Proof.
  run_cases w question dbg; simpl.
  - destruct (run_graded w question dbg vs docs Hvs Hret) as (s2 & _ & ->).
    destruct (valid_context s2) as [|text texts] eqn:Hvc.
    + rewrite final_decision_refusal by exact Hvc. simpl.
      intros H; injection H as <-. reflexivity.
    + rewrite final_decision_generate by congruence. simpl.
      intros H; injection H as <-. reflexivity.
  - destruct e; try discriminate. intros H; injection H as <-. reflexivity.
  - intros H; injection H as <-. reflexivity.
Qed.

Lemma run_returned_telemetry w question dbg r di :
  (run_agentic_rag w question dbg).1 = Return r ->
  debug_info r = Some di ->
  di = debug (run_agentic_rag w question dbg).2.
Proof.
  intros Hr Hdi. rewrite (run_debug_info _ _ _ _ Hr) in Hdi.
  destruct dbg; congruence.
Qed.

(** What a [Return] of [judge] stands for in the source. *)
Lemma judge_Return w question tr doc score :
  judge w question tr doc = Return score <->
  exists d raw,
    critic_chain w tr (page_content doc) question = Return (GDict d)
    /\ d !! "binary_score" = Some (VStr raw)
    /\ score = lower raw.
Proof.
  unfold judge, binary_score_lower. split.
  - destruct (critic_chain w tr (page_content doc) question) as [[d|]|e];
      try discriminate.
    destruct (d !! "binary_score") as [[raw|]|] eqn:Hd; try discriminate.
    intros H; injection H as <-. eauto.
  - intros (d & raw & -> & -> & ->). reflexivity.
Qed.

(** C2, with the tag of the code.  The telemetry of every returned result
    has [relevant_chunks] equal to the number of entries of [chunk_scores]
    that are "yes", whatever the critic answered or raised in either pass. *)
Theorem relevant_chunks_counts_yes w question dbg r di :
  (run_agentic_rag w question dbg).1 = Return r ->
  debug_info r = Some di ->
  relevant_chunks di = count "yes" (chunk_scores di).
Proof.
  intros Hr Hdi. rewrite (run_returned_telemetry _ _ _ _ _ Hr Hdi).
  apply run_telemetry_ok.
Qed.

Lemma relevant_chunks_counts_yes_witness :
  1 = count "yes" ["no"; "no"; "no"; "no"; "no"; "no"; "no"; "yes"; "no"; "no"].
Proof.
  apply (relevant_chunks_counts_yes Example.scenario_A "q" true
           {| answer := "c8";
              debug_info :=
                Some {| total_retrieved := 10;
                        relevant_chunks := 1;
                        chunk_scores := ["no"; "no"; "no"; "no"; "no";
                                         "no"; "no"; "yes"; "no"; "no"];
                        timestamp := "2024-01-01T00:00:00" |} |}
           {| total_retrieved := 10;
              relevant_chunks := 1;
              chunk_scores := ["no"; "no"; "no"; "no"; "no";
                               "no"; "no"; "yes"; "no"; "no"];
              timestamp := "2024-01-01T00:00:00" |});
    vm_compute; reflexivity.
Defined.

(** C2 as written fails: the entries of [chunk_scores] are the critic's
    own words, so a relevant chunk is recorded as "yes" and is not counted
    among the entries equal to "relevant". *)
Lemma relevant_tag_counterexample :
  ~ (forall w question dbg r di,
       (run_agentic_rag w question dbg).1 = Return r ->
       debug_info r = Some di ->
       relevant_chunks di = count "relevant" (chunk_scores di)).
Proof.
  intros H.
  pose (di := {| total_retrieved := 10;
                 relevant_chunks := 1;
                 chunk_scores := ["no"; "no"; "no"; "no"; "no";
                                  "no"; "no"; "yes"; "no"; "no"];
                 timestamp := "2024-01-01T00:00:00" |}).
  assert (Hrun : (run_agentic_rag Example.scenario_A "q" true).1 =
                 Return {| answer := "c8"; debug_info := Some di |})
    by (vm_compute; reflexivity).
  specialize (H Example.scenario_A "q" true _ di Hrun eq_refl).
  vm_compute in H. discriminate H.
Qed.

(** C10.  [relevant_chunks] of every returned telemetry is the number of
    "yes" entries of [chunk_scores].  In both loops the score recorded for a
    chunk is the critic's [binary_score] lowercased, and the count goes up
    by one exactly when that lowercased score is "yes"; a grading that
    raises leaves the count as it was (and the first loop records
    "error"). *)
Theorem relevant_chunks_follow_yes_scores w question dbg :
  (forall r di,
      (run_agentic_rag w question dbg).1 = Return r ->
      debug_info r = Some di ->
      relevant_chunks di = count "yes" (chunk_scores di))
  /\ (forall s doc d raw,
        critic_chain w (trace s) (page_content doc) question = Return (GDict d) ->
        d !! "binary_score" = Some (VStr raw) ->
        chunk_scores (debug (grade_chunk w question doc s).2) =
          chunk_scores (debug s) ++ [lower raw]
        /\ chunk_scores (debug (grade_extended_chunk w question doc s).2) =
             chunk_scores (debug s) ++ [lower raw]
        /\ relevant_chunks (debug (grade_chunk w question doc s).2) =
             relevant_chunks (debug s) +
             (if String.eqb (lower raw) "yes" then 1 else 0)
        /\ relevant_chunks (debug (grade_extended_chunk w question doc s).2) =
             relevant_chunks (debug s) +
             (if String.eqb (lower raw) "yes" then 1 else 0))
  /\ (forall s doc e,
        judge w question (trace s) doc = Raise e ->
        chunk_scores (debug (grade_chunk w question doc s).2) =
          chunk_scores (debug s) ++ ["error"]
        /\ relevant_chunks (debug (grade_chunk w question doc s).2) =
             relevant_chunks (debug s)
        /\ relevant_chunks (debug (grade_extended_chunk w question doc s).2) =
             relevant_chunks (debug s)).
Proof.
  split; [|split].
  - intros r di Hr Hdi. rewrite (run_returned_telemetry _ _ _ _ _ Hr Hdi).
    apply run_telemetry_ok.
  - intros s doc d raw Hcall Hkey.
    assert (Hj : judge w question (trace s) doc = Return (lower raw)).
    { apply judge_Return. eauto. }
    rewrite grade_chunk_eq, grade_extended_chunk_eq, Hj. simpl.
    repeat split; reflexivity.
  - intros s doc e Hj.
    rewrite grade_chunk_eq, grade_extended_chunk_eq, Hj. simpl.
    repeat split; lia.
Qed.

Lemma relevant_chunks_follow_yes_scores_witness :
  chunk_scores
    (debug (grade_chunk Example.generator_down "q" (Example.chunk "c1")
              (init_store Example.generator_down)).2) = [] ++ [lower "Yes"]
  /\ relevant_chunks
       (debug (grade_chunk Example.generator_down "q" (Example.chunk "c1")
                 (init_store Example.generator_down)).2) =
     0 + (if String.eqb (lower "Yes") "yes" then 1 else 0).
Proof.
  destruct (proj1 (proj2 (relevant_chunks_follow_yes_scores
                            Example.generator_down "q" false))
              (init_store Example.generator_down) (Example.chunk "c1")
              {[ "binary_score" := VStr "Yes" ]} "Yes")
    as (H1 & _ & H3 & _);
    [reflexivity | vm_compute; reflexivity | split; [exact H1 | exact H3]].
Defined.

(** ** The entries of [chunk_scores] *)

Lemma graded_as_mono w question tr1 tr2 score :
  tr1 `prefix_of` tr2 ->
  graded_as w question tr1 score -> graded_as w question tr2 score.
Proof.
  intros Hpre (tr & doc & Hp & Hj). exists tr, doc.
  split; [etrans; eassumption | exact Hj].
Qed.

Lemma first_scores_elem w question docs : forall tr score,
  score ∈ first_scores w question tr docs ->
  score = "error"
  \/ exists pre doc post,
       docs = pre ++ doc :: post
       /\ judge w question (tr ++ (critic_event question <$> pre)) doc
          = Return score.
Proof.
  induction docs as [|doc docs IH]; intros tr score Hin.
  - inversion Hin.
  - cbn [first_scores] in Hin. apply elem_of_cons in Hin as [Hhd|Htl].
    + destruct (judge w question tr doc) as [sc|e] eqn:Hj; [|left; exact Hhd].
      right. exists [], doc, docs. simpl. rewrite app_nil_r. split; congruence.
    + destruct (IH _ _ Htl) as [Herr|(pre & doc' & post & -> & Hj)];
        [left; exact Herr|].
      right. exists (doc :: pre), doc', post. split; [reflexivity|].
      simpl. rewrite <- app_assoc in Hj. exact Hj.
Qed.

Lemma extended_scores_elem w question docs : forall tr score,
  score ∈ extended_scores w question tr docs ->
  exists pre doc post,
    docs = pre ++ doc :: post
    /\ judge w question (tr ++ (critic_event question <$> pre)) doc
       = Return score.
Proof.
  induction docs as [|doc docs IH]; intros tr score Hin.
  - inversion Hin.
  - cbn [extended_scores] in Hin. apply elem_of_app in Hin as [Hhd|Htl].
    + destruct (judge w question tr doc) as [sc|e] eqn:Hj; [|inversion Hhd].
      apply list_elem_of_singleton in Hhd. subst sc.
      exists [], doc, docs. simpl. rewrite app_nil_r. split; congruence.
    + destruct (IH _ _ Htl) as (pre & doc' & post & -> & Hj).
      exists (doc :: pre), doc', post. split; [reflexivity|].
      simpl. rewrite <- app_assoc in Hj. exact Hj.
Qed.

Lemma graded_as_split w question tr pre doc post rest score :
  judge w question (tr ++ (critic_event question <$> pre)) doc = Return score ->
  graded_as w question
    (tr ++ (critic_event question <$> (pre ++ doc :: post)) ++ rest) score.
Proof.
  intros Hj. exists (tr ++ (critic_event question <$> pre)), doc.
  split; [|exact Hj].
  exists ((critic_event question <$> post) ++ rest).
  rewrite fmap_app. simpl. rewrite <- !app_assoc. reflexivity.
Qed.

Lemma scores_ok_graded w question docs :
  scores_ok w question (graded_store w question docs).
Proof.
  intros score Hin. rewrite graded_store_eq in *. simpl in *.
  destruct (first_scores_elem _ _ _ _ _ Hin)
    as [Herr|(pre & doc & post & -> & Hj)]; [left; exact Herr|].
  right.
  pose proof (graded_as_split w question [EvRetrieve question 5]
                pre doc post [] score Hj) as H.
  rewrite app_nil_r in H. exact H.
Qed.

Lemma scores_ok_fallback w question s s' :
  fallback_case w question s s' ->
  scores_ok w question s -> scores_ok w question s'.
Proof.
  intros Hcase Hok. inversion Hcase; subst; try exact Hok.
  - intros score Hin. simpl in *.
    destruct (Hok _ Hin) as [Herr|Hg]; [left; exact Herr|right].
    eapply graded_as_mono; [|exact Hg]. apply prefix_app_r. reflexivity.
  - intros score Hin. simpl in *. apply elem_of_app in Hin as [Hold|Hnew].
    + destruct (Hok _ Hold) as [Herr|Hg]; [left; exact Herr|right].
      eapply graded_as_mono; [|exact Hg].
      rewrite <- app_assoc. apply prefix_app_r. reflexivity.
    + right.
      destruct (extended_scores_elem _ _ _ _ _ Hnew)
        as (pre & doc & post & Hdocs & Hj).
      rewrite Hdocs.
      pose proof (graded_as_split w question
                    (trace s ++ [EvRetrieve question 10])
                    pre doc post [] score Hj) as Hgr.
      rewrite app_nil_r in Hgr. exact Hgr.
Qed.

Lemma final_decision_trace w question dbg s :
  trace s `prefix_of` trace (final_decision w question dbg s).2.
Proof.
  destruct (valid_context s) as [|text texts] eqn:Hvc.
  - rewrite final_decision_refusal by exact Hvc. reflexivity.
  - rewrite final_decision_generate by congruence. simpl.
    apply prefix_app_r. reflexivity.
Qed.

Lemma run_scores_ok w question dbg :
  scores_ok w question (run_agentic_rag w question dbg).2.
Proof.
  run_cases w question dbg; try solve [intros score Hin; inversion Hin].
  destruct (run_graded w question dbg vs docs Hvs Hret) as (s2 & Hcase & ->).
  pose proof (scores_ok_fallback _ _ _ _ Hcase
                (scores_ok_graded w question docs)) as Hok.
  destruct (final_decision_store w question dbg s2) as [_ Hdbg].
  intros score Hin. rewrite Hdbg in Hin.
  destruct (Hok _ Hin) as [Herr|Hg]; [left; exact Herr|right].
  eapply graded_as_mono; [apply final_decision_trace|exact Hg].
Qed.

(** C7, as the code has it.  Every entry of [chunk_scores] in a returned
    telemetry is either the sentinel "error" or the lowercased
    [binary_score] that the critic returned for a chunk graded in this run;
    so the entries are among "yes", "no" and "error" when the critic only
    ever answers yes or no (in any letter case). *)
Theorem chunk_scores_are_critic_words w question dbg r di score :
  (run_agentic_rag w question dbg).1 = Return r ->
  debug_info r = Some di ->
  score ∈ chunk_scores di ->
  (score = "error"
   \/ exists tr doc d raw,
        (tr ++ [critic_event question doc])
          `prefix_of` trace (run_agentic_rag w question dbg).2
        /\ critic_chain w tr (page_content doc) question = Return (GDict d)
        /\ d !! "binary_score" = Some (VStr raw)
        /\ score = lower raw)
  /\ ((forall tr context d raw,
         critic_chain w tr context question = Return (GDict d) ->
         d !! "binary_score" = Some (VStr raw) ->
         lower raw = "yes" \/ lower raw = "no") ->
      score = "yes" \/ score = "no" \/ score = "error").
Proof.
  intros Hr Hdi Hin. rewrite (run_returned_telemetry _ _ _ _ _ Hr Hdi) in Hin.
  destruct (run_scores_ok w question dbg score Hin)
    as [Herr|(tr & doc & Hpre & Hj)].
  - split; [left; exact Herr|]. intros _. right. right. exact Herr.
  - apply judge_Return in Hj as (d & raw & Hcall & Hkey & Hscore). split.
    + right. exists tr, doc, d, raw. auto.
    + intros Hyesno. rewrite Hscore.
      destruct (Hyesno _ _ _ _ Hcall Hkey) as [Hy|Hn]; auto.
Qed.

Lemma chunk_scores_are_critic_words_witness :
  "yes" = "yes" \/ "yes" = "no" \/ "yes" = "error".
Proof.
  refine (proj2 (chunk_scores_are_critic_words Example.scenario_A "q" true
           {| answer := "c8";
              debug_info :=
                Some {| total_retrieved := 10;
                        relevant_chunks := 1;
                        chunk_scores := ["no"; "no"; "no"; "no"; "no";
                                         "no"; "no"; "yes"; "no"; "no"];
                        timestamp := "2024-01-01T00:00:00" |} |}
           {| total_retrieved := 10;
              relevant_chunks := 1;
              chunk_scores := ["no"; "no"; "no"; "no"; "no";
                               "no"; "no"; "yes"; "no"; "no"];
              timestamp := "2024-01-01T00:00:00" |}
           "yes" _ _ _) _).
  - vm_compute; reflexivity.
  - reflexivity.
  - apply list_elem_of_In. simpl. tauto.
  - intros tr context d raw Hcall Hkey. simpl in Hcall.
    destruct (String.eqb context "c8"); injection Hcall as <-;
      rewrite lookup_singleton_eq in Hkey; injection Hkey as <-;
      [left|right]; reflexivity.
Defined.

(** C7 as written fails: a relevant chunk is recorded as "yes", and an
    answer of the critic outside yes/no is recorded as it came. *)
Lemma spec_tags_counterexample :
  ~ (forall w question dbg r di score,
       (run_agentic_rag w question dbg).1 = Return r ->
       debug_info r = Some di ->
       score ∈ chunk_scores di ->
       score ∈ spec_tags).
Proof.
  intros H.
  pose (di := {| total_retrieved := 5;
                 relevant_chunks := 1;
                 chunk_scores := ["yes"; "maybe"; "maybe"; "maybe"; "maybe"];
                 timestamp := "2024-01-01T00:00:00" |}).
  assert (Hrun : (run_agentic_rag Example.undecided "q" true).1 =
                 Return {| answer := "c1"; debug_info := Some di |})
    by (vm_compute; reflexivity).
  assert (Hin : "maybe" ∈ chunk_scores di)
    by (apply list_elem_of_In; simpl; tauto).
  specialize (H Example.undecided "q" true _ di "maybe" Hrun eq_refl Hin).
  apply list_elem_of_In in H. simpl in H.
  destruct H as [H|[H|[H|[]]]]; discriminate H.
Qed.

(** ** [total_retrieved] *)

(** C9, as the code has it.  After a first retrieval of [docs], the
    [total_retrieved] of the returned telemetry is the size of the latest
    retrieval that returned: the size of the fallback retrieval when the
    fallback triggered and returned, which replaces the first size and is
    not added to it, and the size of [docs] otherwise. *)
Theorem total_retrieved_is_latest_retrieval w question dbg vs docs r di :
  vector_store w = Some vs ->
  retriever_invoke vs [] question 5 = Return docs ->
  (run_agentic_rag w question dbg).1 = Return r ->
  debug_info r = Some di ->
  (valid_context (graded_store w question docs) <> [] ->
   total_retrieved di = length docs)
  /\ (forall e,
        valid_context (graded_store w question docs) = [] ->
        retriever_invoke vs (trace (graded_store w question docs)) question 10
          = Raise e ->
        total_retrieved di = length docs)
  /\ (forall docs_extended,
        valid_context (graded_store w question docs) = [] ->
        retriever_invoke vs (trace (graded_store w question docs)) question 10
          = Return docs_extended ->
        total_retrieved di = length docs_extended).
Proof.
  intros Hvs Hret Hr Hdi. rewrite (run_returned_telemetry _ _ _ _ _ Hr Hdi).
  destruct (run_graded w question dbg vs docs Hvs Hret) as (s2 & Hcase & ->).
  destruct (final_decision_store w question dbg s2) as [_ ->].
  assert (Hlen : total_retrieved (debug (graded_store w question docs))
                 = length docs)
    by (rewrite graded_store_eq; reflexivity).
  inversion Hcase; subst; repeat split; intros; simpl; congruence.
Qed.

Lemma total_retrieved_is_latest_retrieval_witness :
  10 = length (take 10 Example.ten).
Proof.
  refine (proj2 (proj2 (total_retrieved_is_latest_retrieval
           Example.all_no "q" true (Example.top_k Example.ten)
           (take 5 Example.ten)
           {| answer := REFUSAL_ANSWER;
              debug_info :=
                Some {| total_retrieved := 10;
                        relevant_chunks := 0;
                        chunk_scores := ["no"; "no"; "no"; "no"; "no";
                                         "no"; "no"; "no"; "no"; "no"];
                        timestamp := "2024-01-01T00:00:00" |} |}
           {| total_retrieved := 10;
              relevant_chunks := 0;
              chunk_scores := ["no"; "no"; "no"; "no"; "no";
                               "no"; "no"; "no"; "no"; "no"];
              timestamp := "2024-01-01T00:00:00" |}
           _ _ _ _)) (take 10 Example.ten) _ _);
    vm_compute; reflexivity.
Defined.

(** C9 as written fails: with ten chunks and nothing relevant the two
    passes retrieve 5 and 10 chunks, and [total_retrieved] is 10, not 15. *)
Lemma total_retrieved_counterexample :
  ~ (forall w question dbg r di,
       (run_agentic_rag w question dbg).1 = Return r ->
       debug_info r = Some di ->
       total_retrieved di = chunks_across_passes w question).
Proof.
  intros H.
  pose (di := {| total_retrieved := 10;
                 relevant_chunks := 0;
                 chunk_scores := ["no"; "no"; "no"; "no"; "no";
                                  "no"; "no"; "no"; "no"; "no"];
                 timestamp := "2024-01-01T00:00:00" |}).
  assert (Hrun : (run_agentic_rag Example.all_no "q" true).1 =
                 Return {| answer := REFUSAL_ANSWER; debug_info := Some di |})
    by (vm_compute; reflexivity).
  specialize (H Example.all_no "q" true _ di Hrun eq_refl).
  vm_compute in H. discriminate H.
Qed.

(** ** The fallback pass *)

Lemma filter_retrieve_critic question docs :
  List.filter is_retrieve (critic_event question <$> docs) = [].
Proof. induction docs as [|doc docs IH]; [reflexivity|exact IH]. Qed.

Lemma filter_critic_critic question docs :
  List.filter is_critic (critic_event question <$> docs) =
  critic_event question <$> docs.
Proof.
  induction docs as [|doc docs IH]; [reflexivity|].
  simpl. f_equal. exact IH.
Qed.

Lemma filter_generate_only (tr : list event) :
  List.filter is_critic (List.filter is_generate tr) = []
  /\ List.filter is_retrieve (List.filter is_generate tr) = [].
Proof.
  induction tr as [|[query k|context question|context question] tr [IHc IHr]];
    simpl; auto.
Qed.

(** Slicing at the constant 5 and slicing at the size of the first pass
    agree when both passes read the same ranking. *)
Lemma drop_first_pass_count {A} (ranking : list A) :
  drop 5 (take 10 ranking) = drop (length (take 5 ranking)) (take 10 ranking).
Proof.
  destruct (Nat.le_gt_cases 5 (length ranking)) as [Hle|Hgt].
  - rewrite length_take, Nat.min_l by exact Hle. reflexivity.
  - rewrite !take_ge by lia. rewrite !drop_ge by lia. reflexivity.
Qed.

Lemma take_5_then_rest {A} (ranking : list A) :
  take 5 ranking ++ drop 5 (take 10 ranking) = take 10 ranking.
Proof.
  replace (take 5 ranking) with (take 5 (take 10 ranking))
    by (rewrite take_take; reflexivity).
  apply take_drop.
Qed.

(** The calls of a run whose first pass kept nothing and whose fallback
    retrieval raised. *)
Lemma run_trace_fallback_failed w question dbg vs docs e :
  vector_store w = Some vs ->
  retriever_invoke vs [] question 5 = Return docs ->
  valid_context (graded_store w question docs) = [] ->
  retriever_invoke vs (trace (graded_store w question docs)) question 10
    = Raise e ->
  trace (run_agentic_rag w question dbg).2 =
  EvRetrieve question 5 :: (critic_event question <$> docs)
    ++ [EvRetrieve question 10].
Proof.
  intros Hvs Hret Hvc Hext.
  destruct (run_graded w question dbg vs docs Hvs Hret) as (s2 & Hcase & ->).
  inversion Hcase as [Hne|? Hnone|vs' e' ? Hvs' Hext'|vs' ext ? Hvs' Hext'];
    subst; try congruence.
  rewrite final_decision_refusal by exact Hvc.
  simpl. rewrite graded_store_eq. reflexivity.
Qed.

(** The calls of a run whose first pass kept nothing and whose fallback
    retrieval returned [docs_extended]. *)
Lemma run_trace_fallback_graded w question dbg vs docs docs_extended :
  vector_store w = Some vs ->
  retriever_invoke vs [] question 5 = Return docs ->
  valid_context (graded_store w question docs) = [] ->
  retriever_invoke vs (trace (graded_store w question docs)) question 10
    = Return docs_extended ->
  trace (run_agentic_rag w question dbg).2 =
  EvRetrieve question 5 :: (critic_event question <$> docs)
    ++ EvRetrieve question 10
       :: (critic_event question <$> drop 5 docs_extended)
    ++ List.filter is_generate (trace (run_agentic_rag w question dbg).2).
Proof.
  intros Hvs Hret Hvc Hext.
  destruct (run_graded w question dbg vs docs Hvs Hret) as (s2 & Hcase & ->).
  pose proof (fallback_case_generate _ _ _ _ Hcase) as Hgen.
  rewrite graded_store_no_generate in Hgen.
  inversion Hcase as [Hne|? Hnone|vs' e' ? Hvs' Hext'|vs' ext ? Hvs' Hext' Hs2];
    try congruence.
  assert (ext = docs_extended) as -> by congruence.
  assert (Htr : trace s2 =
                EvRetrieve question 5 :: (critic_event question <$> docs)
                  ++ EvRetrieve question 10
                     :: (critic_event question <$> drop 5 docs_extended)).
  { rewrite <- Hs2. unfold extended_store. simpl.
    rewrite graded_store_eq. simpl. rewrite <- app_assoc. reflexivity. }
  rewrite Hs2.
  destruct (valid_context s2) as [|text texts] eqn:Hvc2.
  - rewrite final_decision_refusal by exact Hvc2. simpl.
    rewrite Hgen, Htr, app_nil_r. reflexivity.
  - rewrite final_decision_generate by congruence. simpl.
    rewrite List.filter_app, Hgen, Htr. simpl.
    rewrite <- app_assoc. reflexivity.
Qed.

(** C1, as the code has it.  When the first pass keeps no chunk, the run
    makes exactly two retrievals: the first with k=5 and one fallback with
    k=10, and no further one.  The fallback pass grades the chunks from the
    sixth position of the fallback result on ([docs_extended[5:]]), in
    order, whatever the first pass returned.  When both retrievals are
    prefixes of one ranking these are the chunks beyond the number the first
    pass returned (also when that number is below 5), and over the whole run
    each of the first ten ranks is graded once. *)
Theorem fallback_grades_from_sixth_position w question dbg vs docs :
  vector_store w = Some vs ->
  retriever_invoke vs [] question 5 = Return docs ->
  valid_context (graded_store w question docs) = [] ->
  List.filter is_retrieve (trace (run_agentic_rag w question dbg).2) =
    [EvRetrieve question 5; EvRetrieve question 10]
  /\ (forall docs_extended,
        retriever_invoke vs (trace (graded_store w question docs)) question 10
          = Return docs_extended ->
        trace (run_agentic_rag w question dbg).2 =
          EvRetrieve question 5 :: (critic_event question <$> docs)
            ++ EvRetrieve question 10
               :: (critic_event question <$> drop 5 docs_extended)
            ++ List.filter is_generate
                 (trace (run_agentic_rag w question dbg).2))
  /\ (forall e,
        retriever_invoke vs (trace (graded_store w question docs)) question 10
          = Raise e ->
        trace (run_agentic_rag w question dbg).2 =
          EvRetrieve question 5 :: (critic_event question <$> docs)
            ++ [EvRetrieve question 10])
  /\ (forall ranking,
        docs = take 5 ranking ->
        retriever_invoke vs (trace (graded_store w question docs)) question 10
          = Return (take 10 ranking) ->
        drop 5 (take 10 ranking) = drop (length docs) (take 10 ranking)
        /\ List.filter is_critic (trace (run_agentic_rag w question dbg).2) =
           critic_event question <$> take 10 ranking).
Proof.
  intros Hvs Hret Hvc.
  destruct (filter_generate_only (trace (run_agentic_rag w question dbg).2))
    as [Hgc Hgr].
  split; [|split; [|split]].
  - destruct (retriever_invoke vs (trace (graded_store w question docs))
                question 10) as [docs_extended|e] eqn:Hext.
    + pose proof (run_trace_fallback_graded w question dbg vs docs
                    docs_extended Hvs Hret Hvc Hext) as Htr.
      set (generation := List.filter is_generate _) in *.
      rewrite Htr. simpl.
      rewrite List.filter_app, filter_retrieve_critic. simpl.
      rewrite List.filter_app, filter_retrieve_critic, Hgr. reflexivity.
    + rewrite (run_trace_fallback_failed w question dbg vs docs e
                 Hvs Hret Hvc Hext).
      simpl. rewrite List.filter_app, filter_retrieve_critic. reflexivity.
  - intros docs_extended Hext.
    exact (run_trace_fallback_graded w question dbg vs docs docs_extended
             Hvs Hret Hvc Hext).
  - intros e Hext.
    exact (run_trace_fallback_failed w question dbg vs docs e
             Hvs Hret Hvc Hext).
  - intros ranking Hdocs Hext.
    pose proof (run_trace_fallback_graded w question dbg vs docs
                  (take 10 ranking) Hvs Hret Hvc Hext) as Htr.
    set (generation := List.filter is_generate _) in *.
    assert (Hdrop : drop 5 (take 10 ranking)
                    = drop (length docs) (take 10 ranking))
      by (rewrite Hdocs; apply drop_first_pass_count).
    split; [exact Hdrop|].
    rewrite Htr. simpl.
    rewrite List.filter_app, filter_critic_critic. simpl.
    rewrite List.filter_app, filter_critic_critic, Hgc, app_nil_r.
    rewrite <- fmap_app, Hdocs, take_5_then_rest. reflexivity.
Qed.

Lemma fallback_grades_from_sixth_position_witness :
  List.filter is_retrieve
    (trace (run_agentic_rag Example.scenario_A "q" false).2) =
    [EvRetrieve "q" 5; EvRetrieve "q" 10]
  /\ List.filter is_critic
       (trace (run_agentic_rag Example.scenario_A "q" false).2) =
     critic_event "q" <$> take 10 Example.ten.
Proof.
  destruct (fallback_grades_from_sixth_position Example.scenario_A "q" false
              (Example.top_k Example.ten) (take 5 Example.ten))
    as (Hretrievals & _ & _ & Hranking);
    [reflexivity | reflexivity | vm_compute; reflexivity |].
  split; [exact Hretrievals|].
  apply (Hranking Example.ten); reflexivity.
Defined.

(** C1 as written fails on a retriever whose two answers are not prefixes of
    one ranking.  When the first pass returns three chunks and the fallback
    ten, the chunks beyond the first pass's count are the ranks 4 to 10 and
    the code grades the ranks 6 to 10.  When the fallback ranks c6 before
    c5, the chunk c5 of the first pass is graded again. *)
Lemma first_pass_count_counterexample :
  ~ (forall w question dbg vs docs docs_extended,
       vector_store w = Some vs ->
       retriever_invoke vs [] question 5 = Return docs ->
       valid_context (graded_store w question docs) = [] ->
       retriever_invoke vs (trace (graded_store w question docs)) question 10
         = Return docs_extended ->
       trace (run_agentic_rag w question dbg).2 =
         EvRetrieve question 5 :: (critic_event question <$> docs)
           ++ EvRetrieve question 10
              :: (critic_event question
                    <$> drop (length docs) docs_extended)
           ++ List.filter is_generate
                (trace (run_agentic_rag w question dbg).2))
  /\ ~ (forall w question dbg vs docs doc before after,
          vector_store w = Some vs ->
          retriever_invoke vs [] question 5 = Return docs ->
          doc ∈ docs ->
          trace (run_agentic_rag w question dbg).2 =
            before ++ EvRetrieve question 10 :: after ->
          critic_event question doc ∉ after).
Proof.
  split.
  - intros H.
    specialize (H Example.growing "q" false
                  {| retriever_invoke := fun _ _ k =>
                       if Nat.eqb k 5 then Return (take 3 Example.ten)
                       else Return Example.ten |}
                  (take 3 Example.ten) Example.ten).
    assert (Htr : trace (run_agentic_rag Example.growing "q" false).2 =
                  [EvRetrieve "q" 5; EvCritic "c1" "q"; EvCritic "c2" "q";
                   EvCritic "c3" "q"; EvRetrieve "q" 10; EvCritic "c6" "q";
                   EvCritic "c7" "q"; EvCritic "c8" "q"; EvCritic "c9" "q";
                   EvCritic "c10" "q"])
      by (vm_compute; reflexivity).
    rewrite Htr in H.
    assert (Hclaim : _) by (apply H; vm_compute; reflexivity).
    vm_compute in Hclaim. discriminate Hclaim.
  - intros H.
    specialize (H Example.reordered "q" false
                  {| retriever_invoke := fun _ _ k =>
                       if Nat.eqb k 5 then Return (take 5 Example.ten)
                       else Return (Example.chunk
                                      <$> ["c1"; "c2"; "c3"; "c4"; "c6";
                                           "c5"; "c7"; "c8"; "c9"; "c10"]) |}
                  (take 5 Example.ten) (Example.chunk "c5")
                  (EvRetrieve "q" 5
                     :: (critic_event "q" <$> take 5 Example.ten))
                  (critic_event "q" <$> (Example.chunk
                     <$> ["c5"; "c7"; "c8"; "c9"; "c10"]))).
    apply H.
    + reflexivity.
    + reflexivity.
    + apply list_elem_of_In. vm_compute. tauto.
    + vm_compute. reflexivity.
    + apply list_elem_of_In. vm_compute. tauto.
Qed.

(** ** The context of the generator *)

(** C8.  The context of a generator call is the texts of the chunks judged
    relevant, in the order they were kept, joined by [SEP] (Python's
    [join]).  When the first pass kept a chunk these are the first-pass
    texts alone; otherwise they are the texts kept by the fallback pass from
    [docs_extended[5:]]. *)
Theorem generator_context_is_relevant_texts
  w question dbg vs docs context question' :
  vector_store w = Some vs ->
  retriever_invoke vs [] question 5 = Return docs ->
  EvGenerate context question' ∈ trace (run_agentic_rag w question dbg).2 ->
  question' = question
  /\ ((relevant_texts w question [EvRetrieve question 5] docs <> []
       /\ context =
          String.concat SEP
            (relevant_texts w question [EvRetrieve question 5] docs))
      \/ (relevant_texts w question [EvRetrieve question 5] docs = []
          /\ exists docs_extended,
               retriever_invoke vs
                 (EvRetrieve question 5 :: (critic_event question <$> docs))
                 question 10 = Return docs_extended
               /\ context =
                  String.concat SEP
                    (relevant_texts w question
                       (EvRetrieve question 5
                          :: (critic_event question <$> docs)
                          ++ [EvRetrieve question 10])
                       (drop 5 docs_extended)))).
Proof.
  intros Hvs Hret Hin.
  assert (Hf : In (EvGenerate context question')
                 (List.filter is_generate
                    (trace (run_agentic_rag w question dbg).2))).
  { apply List.filter_In. split; [apply list_elem_of_In, Hin|reflexivity]. }
  rewrite run_generate_events in Hf.
  destruct (run_graded w question dbg vs docs Hvs Hret) as (s2 & Hcase & Hrun).
  rewrite Hrun in Hf.
  destruct (final_decision_store w question dbg s2) as [Hvc2 _].
  rewrite Hvc2 in Hf.
  assert (Hctx : valid_context s2 <> []
                 /\ context = String.concat SEP (valid_context s2)
                 /\ question' = question).
  { destruct (valid_context s2) as [|text texts]; [destruct Hf|].
    destruct Hf as [Hev|[]]. injection Hev as <- <-.
    repeat split. discriminate. }
  destruct Hctx as (Hvc & -> & ->).
  split; [reflexivity|].
  inversion Hcase as [Hne|Hnil Hnone|vs' e Hnil Hvs' Hext Hs2
                      |vs' docs_extended Hnil Hvs' Hext Hs2].
  - subst s2. rewrite graded_store_eq in Hne |- *. simpl in Hne |- *.
    left. split; [exact Hne|reflexivity].
  - congruence.
  - subst s2. simpl in Hvc. congruence.
  - assert (vs' = vs) as -> by congruence.
    rewrite graded_store_eq in Hnil, Hext. simpl in Hnil, Hext.
    right. split; [exact Hnil|]. exists docs_extended. split; [exact Hext|].
    unfold extended_store.
    rewrite graded_store_eq. simpl. rewrite Hnil. reflexivity.
Qed.

Lemma generator_context_is_relevant_texts_witness :
  "q" = "q"
  /\ ((relevant_texts Example.two_relevant "q" [EvRetrieve "q" 5]
         (take 5 Example.ten) <> []
       /\ String.concat SEP ["c2"; "c4"] =
          String.concat SEP
            (relevant_texts Example.two_relevant "q" [EvRetrieve "q" 5]
               (take 5 Example.ten)))
      \/ (relevant_texts Example.two_relevant "q" [EvRetrieve "q" 5]
            (take 5 Example.ten) = []
          /\ exists docs_extended,
               retriever_invoke (Example.top_k Example.ten)
                 (EvRetrieve "q" 5
                    :: (critic_event "q" <$> take 5 Example.ten))
                 "q" 10 = Return docs_extended
               /\ String.concat SEP ["c2"; "c4"] =
                  String.concat SEP
                    (relevant_texts Example.two_relevant "q"
                       (EvRetrieve "q" 5
                          :: (critic_event "q" <$> take 5 Example.ten)
                          ++ [EvRetrieve "q" 10])
                       (drop 5 docs_extended)))).
Proof.
  apply (generator_context_is_relevant_texts Example.two_relevant "q" false
           (Example.top_k Example.ten) (take 5 Example.ten)
           (String.concat SEP ["c2"; "c4"]) "q");
    [reflexivity | reflexivity |].
  apply list_elem_of_In. vm_compute. tauto.
Defined.

(** ** Grading failures *)

(** In the first loop a failed grading is recorded as "error", keeps the
    chunk out of [valid_context] and of the count, and the loop goes on. *)
Lemma grade_chunk_failure w question doc s e :
  judge w question (trace s) doc = Raise e ->
  (grade_chunk w question doc s).1 = Return tt
  /\ chunk_scores (debug (grade_chunk w question doc s).2) =
     chunk_scores (debug s) ++ ["error"]
  /\ valid_context (grade_chunk w question doc s).2 = valid_context s
  /\ relevant_chunks (debug (grade_chunk w question doc s).2) =
     relevant_chunks (debug s).
Proof.
  intros Hj. rewrite grade_chunk_eq, Hj. simpl.
  rewrite app_nil_r, Nat.add_0_r. auto.
Qed.

(** In the fallback loop a failed grading leaves [debug_info] and
    [valid_context] as they were: nothing is recorded for the chunk. *)
Lemma grade_extended_chunk_failure w question doc s e :
  judge w question (trace s) doc = Raise e ->
  (grade_extended_chunk w question doc s).1 = Return tt
  /\ debug (grade_extended_chunk w question doc s).2 = debug s
  /\ valid_context (grade_extended_chunk w question doc s).2 = valid_context s.
Proof.
  intros Hj. rewrite grade_extended_chunk_eq, Hj. simpl.
  rewrite !app_nil_r, Nat.add_0_r. destruct s as [tr vc [a b c d]]. auto.
Qed.

(** C5 at its failing input.  Ten chunks, none relevant, and the grading of
    c6 (the first chunk of the fallback pass) raises: the run answers, ten
    grading calls were made, but [chunk_scores] has nine entries and no
    "error" among them.  The same failure on c2, in the first pass, is
    recorded. *)
Theorem fallback_grading_failure_not_recorded :
  judge Example.critic_fails_on_c6 "q"
    (EvRetrieve "q" 5 :: (critic_event "q" <$> take 5 Example.ten)
       ++ [EvRetrieve "q" 10])
    (Example.chunk "c6") = Raise OtherException
  /\ List.filter is_critic
       (trace (run_agentic_rag Example.critic_fails_on_c6 "q" true).2) =
     critic_event "q" <$> Example.ten
  /\ (run_agentic_rag Example.critic_fails_on_c6 "q" true).1 =
     Return {| answer := REFUSAL_ANSWER;
               debug_info :=
                 Some {| total_retrieved := 10;
                         relevant_chunks := 0;
                         chunk_scores := ["no"; "no"; "no"; "no"; "no";
                                          "no"; "no"; "no"; "no"];
                         timestamp := "2024-01-01T00:00:00" |} |}
  /\ (run_agentic_rag Example.critic_fails_on_c2 "q" true).1 =
     Return {| answer := REFUSAL_ANSWER;
               debug_info :=
                 Some {| total_retrieved := 10;
                         relevant_chunks := 0;
                         chunk_scores := ["no"; "error"; "no"; "no"; "no";
                                          "no"; "no"; "no"; "no"; "no"];
                         timestamp := "2024-01-01T00:00:00" |} |}.
Proof. repeat split; vm_compute; reflexivity. Qed.

(** ** Examples *)

Example run_scenario_A :
  (run_agentic_rag Example.scenario_A "q" true).1 =
  Return {| answer := "c8";
            debug_info := Some {| total_retrieved := 10;
                                  relevant_chunks := 1;
                                  chunk_scores := ["no"; "no"; "no"; "no"; "no";
                                                   "no"; "no"; "yes"; "no"; "no"];
                                  timestamp := "2024-01-01T00:00:00" |} |}.
Proof. vm_compute. reflexivity. Qed.

(** An index of three chunks: the first pass returns three, the fallback
    retrieval returns the same three, and nothing new is graded. *)
Example run_three_chunks :
  trace (run_agentic_rag Example.three_chunks "q" true).2 =
    [EvRetrieve "q" 5; EvCritic "c1" "q"; EvCritic "c2" "q";
     EvCritic "c3" "q"; EvRetrieve "q" 10]
  /\ (run_agentic_rag Example.three_chunks "q" true).1 =
     Return {| answer := REFUSAL_ANSWER;
               debug_info :=
                 Some {| total_retrieved := 3;
                         relevant_chunks := 0;
                         chunk_scores := ["no"; "no"; "no"];
                         timestamp := "2024-01-01T00:00:00" |} |}.
Proof. split; vm_compute; reflexivity. Qed.

(** * Further properties of the control loop *)

Lemma final_decision_flag w question dbg s :
  (final_decision w question dbg s).2 = (final_decision w question false s).2
  /\ match (final_decision w question dbg s).1,
           (final_decision w question false s).1 with
     | Return r, Return r' =>
         answer r = answer r'
         /\ debug_info r = (if dbg then Some (debug s) else None)
         /\ debug_info r' = None
     | _, _ => False
     end.
Proof.
  destruct (valid_context s) as [|text texts] eqn:Hvc.
  - rewrite !final_decision_refusal by exact Hvc. simpl. auto.
  - rewrite !final_decision_generate by congruence. simpl. auto.
Qed.

(** X1.  The [debug] flag decides only whether the telemetry is attached:
    with and without it the run makes the same calls, ends in the same
    store, and returns the same answer or raises the same exception. *)
Theorem debug_flag_only_gates_telemetry w question dbg :
  (run_agentic_rag w question dbg).2 = (run_agentic_rag w question false).2
  /\ match (run_agentic_rag w question dbg).1,
           (run_agentic_rag w question false).1 with
     | Return r, Return r' =>
         answer r = answer r'
         /\ debug_info r =
            (if dbg
             then Some (debug (run_agentic_rag w question dbg).2)
             else None)
         /\ debug_info r' = None
     | Raise e, Raise e' => e = e'
     | _, _ => False
     end.
Proof.
  destruct (vector_store w) as [vs|] eqn:Hvs.
  - destruct (retriever_invoke vs [] question 5) as [docs|e] eqn:Hret.
    + rewrite !(run_retrieved w question _ vs docs Hvs Hret). unfold bind.
      destruct (fallback_strategy_cases w question
                  (graded_store w question docs)) as (s2 & -> & _).
      destruct (final_decision_flag w question dbg s2) as [Hst Hres].
      split; [exact Hst|].
      destruct (final_decision w question dbg s2) as [[r|e] s3] eqn:Hd;
        destruct (final_decision w question false s2) as [[r'|e'] s3'];
        simpl in *; try contradiction.
      destruct Hres as (Ha & Hd1 & Hd2). repeat split; try assumption.
      rewrite Hd1.
      destruct (final_decision_store w question dbg s2) as [_ Hdbg].
      rewrite Hd in Hdbg. simpl in Hdbg. rewrite Hdbg. reflexivity.
    + rewrite !(run_retrieval_raises w question _ vs e Hvs Hret).
      destruct e; simpl; auto.
  - rewrite !(run_not_ready w question _ Hvs). simpl. auto.
Qed.

(** X2.  An exception leaves [run_agentic_rag] exactly when an index is
    built and the first retrieval raises something other than a ValueError;
    it is that exception. *)
Theorem run_raises_iff_first_retrieval_raises w question dbg e :
  (run_agentic_rag w question dbg).1 = Raise e
  <-> exists vs,
        vector_store w = Some vs
        /\ retriever_invoke vs [] question 5 = Raise e
        /\ e <> ValueError.
Proof.
  split.
  - intros Hrun.
    destruct (run_raises_only_from_first_retrieval _ _ _ _ Hrun)
      as (Hne & _ & vs & Hvs & Hret).
    exists vs. auto.
  - intros (vs & Hvs & Hret & Hne).
    rewrite (run_retrieval_raises w question dbg vs e Hvs Hret).
    destruct e; try reflexivity. congruence.
Qed.

(** X3.  A ValueError raised inside the retriever, with an index built, is
    taken for a missing index: the run returns the "System not ready"
    answer after the single retrieval call, with the default telemetry. *)
Theorem retriever_value_error_reads_not_ready w question dbg vs :
  vector_store w = Some vs ->
  retriever_invoke vs [] question 5 = Raise ValueError ->
  (run_agentic_rag w question dbg).1 =
    Return {| answer := NOT_READY_ANSWER;
              debug_info :=
                if dbg
                then Some {| total_retrieved := 0;
                             relevant_chunks := 0;
                             chunk_scores := [];
                             timestamp := datetime_now w |}
                else None |}
  /\ trace (run_agentic_rag w question dbg).2 = [EvRetrieve question 5].
Proof.
  intros Hvs Hret.
  rewrite (run_retrieval_raises w question dbg vs ValueError Hvs Hret).
  split; reflexivity.
Qed.

(** X4.  A fallback retrieval that raises, whatever the exception, does
    not abort the query: the answer is the refusal, no further call is made
    and the telemetry is the one of the first pass. *)
Theorem fallback_retrieval_failure_is_refusal w question dbg vs docs e :
  vector_store w = Some vs ->
  retriever_invoke vs [] question 5 = Return docs ->
  valid_context (graded_store w question docs) = [] ->
  retriever_invoke vs (trace (graded_store w question docs)) question 10
    = Raise e ->
  (run_agentic_rag w question dbg).1 =
    Return {| answer := REFUSAL_ANSWER;
              debug_info :=
                if dbg
                then Some {| total_retrieved := length docs;
                             relevant_chunks := 0;
                             chunk_scores :=
                               first_scores w question
                                 [EvRetrieve question 5] docs;
                             timestamp := datetime_now w |}
                else None |}
  /\ trace (run_agentic_rag w question dbg).2 =
     EvRetrieve question 5 :: (critic_event question <$> docs)
       ++ [EvRetrieve question 10].
Proof.
  intros Hvs Hret Hvc Hext.
  split; [|exact (run_trace_fallback_failed w question dbg vs docs e
                    Hvs Hret Hvc Hext)].
  destruct (run_graded w question dbg vs docs Hvs Hret) as (s2 & Hcase & ->).
  inversion Hcase as [Hne|? Hnone|vs' e' ? Hvs' Hext'|vs' ext ? Hvs' Hext'];
    subst; try congruence.
  rewrite final_decision_refusal by exact Hvc. simpl.
  rewrite graded_store_eq in Hvc |- *. simpl in Hvc |- *.
  rewrite Hvc. reflexivity.
Qed.

(** X5.  On an index of at most five chunks the fallback pass grades
    nothing: its retrieval returns no chunk beyond the fifth, so the answer
    is the refusal and the scores stay those of the first pass. *)
Theorem fallback_on_small_index_grades_nothing
  w question dbg vs docs docs_extended :
  vector_store w = Some vs ->
  retriever_invoke vs [] question 5 = Return docs ->
  valid_context (graded_store w question docs) = [] ->
  retriever_invoke vs (trace (graded_store w question docs)) question 10
    = Return docs_extended ->
  length docs_extended <= 5 ->
  (run_agentic_rag w question dbg).1 =
    Return {| answer := REFUSAL_ANSWER;
              debug_info :=
                if dbg
                then Some {| total_retrieved := length docs_extended;
                             relevant_chunks := 0;
                             chunk_scores :=
                               first_scores w question
                                 [EvRetrieve question 5] docs;
                             timestamp := datetime_now w |}
                else None |}
  /\ trace (run_agentic_rag w question dbg).2 =
     EvRetrieve question 5 :: (critic_event question <$> docs)
       ++ [EvRetrieve question 10].
Proof.
  intros Hvs Hret Hvc Hext Hlen.
  destruct (run_graded w question dbg vs docs Hvs Hret) as (s2 & Hcase & ->).
  inversion Hcase as [Hne|? Hnone|vs' e' ? Hvs' Hext'|vs' ext ? Hvs' Hext' Hs2];
    try congruence.
  assert (ext = docs_extended) as -> by congruence.
  assert (Hdrop : drop 5 docs_extended = []) by (apply drop_ge; exact Hlen).
  unfold extended_store. rewrite Hdrop. simpl.
  rewrite final_decision_refusal
    by (simpl; rewrite Hvc; reflexivity).
  simpl. rewrite !app_nil_r.
  rewrite graded_store_eq in Hvc |- *. simpl in Hvc |- *.
  rewrite Hvc. simpl. split; reflexivity.
Qed.

Lemma retriever_value_error_reads_not_ready_witness :
  (run_agentic_rag (Example.broken_retriever ValueError) "q" false).1 =
    Return {| answer := NOT_READY_ANSWER; debug_info := None |}
  /\ trace (run_agentic_rag (Example.broken_retriever ValueError) "q" false).2
     = [EvRetrieve "q" 5].
Proof.
  apply (retriever_value_error_reads_not_ready
           (Example.broken_retriever ValueError) "q" false
           {| retriever_invoke := fun _ _ _ => Raise ValueError |});
    reflexivity.
Defined.

Lemma fallback_retrieval_failure_is_refusal_witness :
  (run_agentic_rag Example.fallback_down "q" false).1 =
    Return {| answer := REFUSAL_ANSWER; debug_info := None |}
  /\ trace (run_agentic_rag Example.fallback_down "q" false).2 =
     EvRetrieve "q" 5 :: (critic_event "q" <$> take 5 Example.ten)
       ++ [EvRetrieve "q" 10].
Proof.
  apply (fallback_retrieval_failure_is_refusal Example.fallback_down "q" false
           {| retriever_invoke := fun _ _ k =>
                if Nat.eqb k 5 then Return (take 5 Example.ten)
                else Raise OtherException |}
           (take 5 Example.ten) OtherException);
    vm_compute; reflexivity.
Defined.

Lemma fallback_on_small_index_grades_nothing_witness :
  (run_agentic_rag Example.three_chunks "q" false).1 =
    Return {| answer := REFUSAL_ANSWER; debug_info := None |}
  /\ trace (run_agentic_rag Example.three_chunks "q" false).2 =
     EvRetrieve "q" 5 :: (critic_event "q" <$> take 3 Example.ten)
       ++ [EvRetrieve "q" 10].
Proof.
  apply (fallback_on_small_index_grades_nothing Example.three_chunks "q" false
           (Example.top_k (take 3 Example.ten)) (take 3 Example.ten)
           (take 3 Example.ten));
    vm_compute; try reflexivity. lia.
Defined.

Lemma final_decision_calls w question dbg s :
  List.filter is_retrieve (trace (final_decision w question dbg s).2) =
    List.filter is_retrieve (trace s)
  /\ List.filter is_critic (trace (final_decision w question dbg s).2) =
     List.filter is_critic (trace s).
Proof.
  destruct (valid_context s) as [|text texts] eqn:Hvc.
  - rewrite final_decision_refusal by exact Hvc. auto.
  - rewrite final_decision_generate by congruence. simpl.
    rewrite !List.filter_app. simpl. rewrite !app_nil_r. auto.
Qed.

Lemma graded_store_calls w question docs :
  List.filter is_retrieve (trace (graded_store w question docs)) =
    [EvRetrieve question 5]
  /\ List.filter is_critic (trace (graded_store w question docs)) =
     critic_event question <$> docs.
Proof.
  rewrite graded_store_eq. simpl.
  rewrite filter_retrieve_critic, filter_critic_critic. auto.
Qed.

(** X6.  A run makes at most two retrieval calls; and when the retriever
    keeps its contract of returning at most [k] chunks, at most ten grading
    calls. *)
Theorem external_calls_are_bounded w question dbg :
  length (List.filter is_retrieve
            (trace (run_agentic_rag w question dbg).2)) <= 2
  /\ forall vs,
       vector_store w = Some vs ->
       (forall tr k docs,
           retriever_invoke vs tr question k = Return docs ->
           length docs <= k) ->
       length (List.filter is_critic
                 (trace (run_agentic_rag w question dbg).2)) <= 10.
Proof.
  run_cases w question dbg; simpl; try (split; [lia|intros; lia]).
  destruct (run_graded w question dbg vs docs Hvs Hret) as (s2 & Hcase & ->).
  destruct (final_decision_calls w question dbg s2) as [-> ->].
  destruct (graded_store_calls w question docs) as [Hr Hc].
  split.
  - inversion Hcase; subst; simpl;
      rewrite ?List.filter_app, ?Hr, ?filter_retrieve_critic; simpl; lia.
  - intros vs' Hvs' Hk. assert (vs' = vs) as -> by congruence.
    pose proof (Hk _ _ _ Hret) as Hlen.
    inversion Hcase as [Hne|? Hnone|vs' e' ? Hvs'' Hext
                        |vs' ext ? Hvs'' Hext]; subst; simpl;
      rewrite ?List.filter_app, ?Hc, ?filter_critic_critic; simpl;
      rewrite ?length_app, ?length_fmap; simpl; try lia.
    assert (vs = vs') as <- by congruence.
    pose proof (Hk _ _ _ Hext) as Hlen'. rewrite length_drop. lia.
Qed.

Lemma external_calls_are_bounded_witness :
  length (List.filter is_critic
            (trace (run_agentic_rag Example.all_no "q" false).2)) <= 10.
Proof.
  apply (proj2 (external_calls_are_bounded Example.all_no "q" false)
           (Example.top_k Example.ten)); [reflexivity|].
  intros tr k docs H. simpl in H. injection H as <-.
  rewrite length_take. lia.
Defined.

(** X7.  After a first retrieval that returned, the generator is called
    exactly when [relevant_chunks] is positive at the end, and with
    [relevant_chunks] at 0 the answer is the refusal. *)
Theorem generator_called_iff_relevant_chunks w question dbg vs docs :
  vector_store w = Some vs ->
  retriever_invoke vs [] question 5 = Return docs ->
  (relevant_chunks (debug (run_agentic_rag w question dbg).2) = 0
   <-> List.filter is_generate (trace (run_agentic_rag w question dbg).2) = [])
  /\ (relevant_chunks (debug (run_agentic_rag w question dbg).2) = 0 ->
      exists r,
        (run_agentic_rag w question dbg).1 = Return r
        /\ answer r = REFUSAL_ANSWER).
Proof.
  intros Hvs Hret.
  destruct (run_telemetry_ok w question dbg) as [_ Hlen].
  pose proof (run_generate_events w question dbg) as Hgen.
  split.
  - rewrite Hgen, <- Hlen.
    destruct (valid_context (run_agentic_rag w question dbg).2); simpl;
      split; intros; congruence.
  - rewrite <- Hlen. intros Hz.
    destruct (run_graded w question dbg vs docs Hvs Hret) as (s2 & _ & Hrun).
    rewrite Hrun in *.
    destruct (final_decision_store w question dbg s2) as [Hvc _].
    rewrite Hvc in Hz. apply length_zero_iff_nil in Hz.
    rewrite final_decision_refusal by exact Hz. eexists; split; reflexivity.
Qed.

Lemma generator_called_iff_relevant_chunks_witness :
  exists r,
    (run_agentic_rag Example.all_no "q" false).1 = Return r
    /\ answer r = REFUSAL_ANSWER.
Proof.
  apply (proj2 (generator_called_iff_relevant_chunks Example.all_no "q" false
                  (Example.top_k Example.ten) (take 5 Example.ten)
                  eq_refl eq_refl)).
  vm_compute. reflexivity.
Defined.

Lemma lower_ascii_idempotent c : lower_ascii (lower_ascii c) = lower_ascii c.
Proof.
  destruct c as [[] [] [] [] [] [] [] []]; vm_compute; reflexivity.
Qed.

Lemma lower_idempotent s : lower (lower s) = lower s.
Proof.
  induction s as [|c s IH]; [reflexivity|].
  simpl. rewrite lower_ascii_idempotent, IH. reflexivity.
Qed.

(** X8.  No entry of [chunk_scores] in a returned telemetry holds an
    uppercase ASCII letter: lowercasing an entry leaves it as it is. *)
Theorem chunk_scores_are_lowercase w question dbg r di score :
  (run_agentic_rag w question dbg).1 = Return r ->
  debug_info r = Some di ->
  score ∈ chunk_scores di ->
  lower score = score.
Proof.
  intros Hr Hdi Hin. rewrite (run_returned_telemetry _ _ _ _ _ Hr Hdi) in Hin.
  destruct (run_scores_ok w question dbg score Hin)
    as [->|(tr & doc & _ & Hj)]; [reflexivity|].
  apply judge_Return in Hj as (d & raw & _ & _ & ->).
  apply lower_idempotent.
Qed.

Lemma chunk_scores_are_lowercase_witness : lower "maybe" = "maybe".
Proof.
  apply (chunk_scores_are_lowercase Example.undecided "q" true
           {| answer := "c1";
              debug_info :=
                Some {| total_retrieved := 5;
                        relevant_chunks := 1;
                        chunk_scores :=
                          ["yes"; "maybe"; "maybe"; "maybe"; "maybe"];
                        timestamp := "2024-01-01T00:00:00" |} |}
           {| total_retrieved := 5;
              relevant_chunks := 1;
              chunk_scores := ["yes"; "maybe"; "maybe"; "maybe"; "maybe"];
              timestamp := "2024-01-01T00:00:00" |});
    [vm_compute; reflexivity | reflexivity |].
  apply list_elem_of_In. simpl. tauto.
Defined.

Lemma length_first_scores w question docs : forall tr,
  length (first_scores w question tr docs) = length docs.
Proof.
  induction docs as [|doc docs IH]; intros tr; [reflexivity|].
  simpl. rewrite IH. reflexivity.
Qed.

Lemma length_extended_scores w question docs : forall tr,
  length (extended_scores w question tr docs) <= length docs.
Proof.
  induction docs as [|doc docs IH]; intros tr; [reflexivity|].
  cbn [extended_scores]. rewrite length_app. specialize (IH (tr ++ [critic_event question doc])).
  destruct (judge w question tr doc); simpl; lia.
Qed.

(** X9.  After a first retrieval of [docs], [chunk_scores] has at least one
    entry per chunk of [docs] and never more entries than grading calls
    were made; when the first pass kept a chunk it has exactly
    [total_retrieved] entries. *)
Theorem scores_per_grading_call w question dbg vs docs :
  vector_store w = Some vs ->
  retriever_invoke vs [] question 5 = Return docs ->
  length docs
    <= length (chunk_scores (debug (run_agentic_rag w question dbg).2))
  /\ length (chunk_scores (debug (run_agentic_rag w question dbg).2))
     <= length (List.filter is_critic
                  (trace (run_agentic_rag w question dbg).2))
  /\ (valid_context (graded_store w question docs) <> [] ->
      length (chunk_scores (debug (run_agentic_rag w question dbg).2)) =
      total_retrieved (debug (run_agentic_rag w question dbg).2)).
Proof.
  intros Hvs Hret.
  destruct (run_graded w question dbg vs docs Hvs Hret) as (s2 & Hcase & ->).
  destruct (final_decision_calls w question dbg s2) as [_ ->].
  destruct (final_decision_store w question dbg s2) as [_ ->].
  destruct (graded_store_calls w question docs) as [_ Hc].
  assert (Hs : chunk_scores (debug (graded_store w question docs)) =
               first_scores w question [EvRetrieve question 5] docs)
    by (rewrite graded_store_eq; reflexivity).
  assert (Ht : total_retrieved (debug (graded_store w question docs)) =
               length docs)
    by (rewrite graded_store_eq; reflexivity).
  pose proof (length_first_scores w question docs [EvRetrieve question 5])
    as Hlen.
  inversion Hcase as [Hne|Hnil Hnone|vs' e' Hnil Hvs' Hext
                      |vs' ext Hnil Hvs' Hext]; subst; simpl;
    rewrite ?List.filter_app, ?Hc, ?Hs, ?Ht, ?filter_critic_critic; simpl;
    rewrite ?length_app, ?length_fmap, ?Hlen; simpl;
    repeat split; try lia; try congruence.
  pose proof (length_extended_scores w question (drop 5 ext)
                (trace (graded_store w question docs)
                   ++ [EvRetrieve question 10])).
  lia.
Qed.

Lemma scores_per_grading_call_witness :
  length (take 5 Example.ten)
    <= length (chunk_scores
                 (debug (run_agentic_rag Example.critic_fails_on_c6 "q" true).2)).
Proof.
  apply (scores_per_grading_call Example.critic_fails_on_c6 "q" true
           (Example.top_k Example.ten) (take 5 Example.ten));
    reflexivity.
Defined.

(** * The HTTP layer *)

(** X10.  [chat_endpoint] answers 400 exactly when [health_check] reports
    the vector store as not ready, and then without any external call. *)
Theorem chat_400_iff_health_not_ready w request :
  ((exists detail,
       (chat_endpoint w request).1 = HTTPException 400 detail)
   <-> vector_store_ready (health_check w) = false)
  /\ (vector_store_ready (health_check w) = false ->
      chat_endpoint w request =
      (HTTPException 400 (DetailText "Please upload a PDF first."), [])).
Proof.
  unfold chat_endpoint, health_check. simpl.
  destruct (vector_store w) as [vs|]; simpl.
  - split; [|discriminate]. split; [|discriminate].
    intros [detail H].
    destruct (run_agentic_rag w (req_question request) (req_debug request))
      as [[r|e] s]; discriminate H.
  - split; [|reflexivity]. split; [reflexivity|]. eauto.
Qed.

Lemma chat_400_iff_health_not_ready_witness :
  chat_endpoint Example.no_index
    {| req_question := "what is X?"; req_debug := false |} =
  (HTTPException 400 (DetailText "Please upload a PDF first."), []).
Proof.
  apply (proj2 (chat_400_iff_health_not_ready Example.no_index
                  {| req_question := "what is X?"; req_debug := false |})).
  reflexivity.
Defined.


(** X12.  A body returned by [chat_endpoint] carries telemetry exactly when
    the request set [debug]. *)
Theorem chat_telemetry_iff_requested w request r :
  (chat_endpoint w request).1 = Ok r ->
  (debug_info r = None <-> req_debug request = false).
Proof.
  unfold chat_endpoint.
  destruct (vector_store w) as [vs|]; [|discriminate].
  destruct (run_agentic_rag w (req_question request) (req_debug request))
    as [[r'|e] s] eqn:Hrun; [|discriminate].
  intros H; injection H as ->.
  assert (Hr : (run_agentic_rag w (req_question request)
                  (req_debug request)).1 = Return r)
    by (rewrite Hrun; reflexivity).
  rewrite (run_debug_info _ _ _ _ Hr).
  destruct (req_debug request); split; congruence.
Qed.

Lemma chat_telemetry_iff_requested_witness :
  (None : option DebugInfo) = None <-> false = false.
Proof.
  apply (chat_telemetry_iff_requested Example.scenario_A
           {| req_question := "q"; req_debug := false |}
           {| answer := "c8"; debug_info := None |}).
  vm_compute. reflexivity.
Defined.

Lemma endswith_spec s suffix :
  endswith s suffix = true <-> exists prefix, s = prefix +:+ suffix.
Proof.
  induction s as [|c s IH]; cbn [endswith].
  - destruct (String.eqb_spec "" suffix) as [<-|Hne].
    + split; [exists ""; reflexivity|reflexivity].
    + split; [discriminate|].
      intros [[|c p] H]; [|discriminate H].
      change ("" +:+ suffix) with suffix in H. congruence.
  - destruct (String.eqb_spec (String c s) suffix) as [<-|Hne].
    + split; [exists ""; reflexivity|reflexivity].
    + rewrite IH. split.
      * intros [p ->]. exists (String c p). reflexivity.
      * intros [[|c' p] H].
        -- change ("" +:+ suffix) with suffix in H. congruence.
        -- change (String c' p +:+ suffix) with (String c' (p +:+ suffix)) in H.
           injection H as <- ->. eauto.
Qed.

Lemma temp_is_not_index file : temp_filename_of file <> vector_store_path.
Proof.
  unfold temp_filename_of, vector_store_path. intros H. cbn in H.
  discriminate H.
Qed.

Ltac upload_paths file :=
  pose proof (temp_is_not_index file);
  unfold upload_document, save_and_ingest, ingest_pdf, save_index,
    open_for_writing, sbind, pure_call, write_file, set_path,
    set_vector_store, os_path_exists, os_remove;
  simpl;
  repeat (case_match; simpl in *;
          rewrite ?lookup_insert_eq, ?lookup_delete_eq in *;
          rewrite ?lookup_insert_ne, ?lookup_delete_ne in * by congruence;
          simplify_eq).

(** * Upload and ingestion *)

(** X13.  [upload_document] answers 400 exactly when the file name is not
    some prefix followed by ".pdf" (in lowercase), and then it leaves the
    index and the files as they were. *)
Theorem upload_400_iff_not_pdf lib file srv :
  ((exists detail,
       (upload_document lib file srv).1 = HTTPException 400 detail)
   <-> ~ exists prefix, filename file = prefix +:+ ".pdf")
  /\ ((~ exists prefix, filename file = prefix +:+ ".pdf") ->
      upload_document lib file srv =
      (HTTPException 400 (DetailText "Only PDF files are supported"), srv)).
Proof.
  rewrite <- endswith_spec.
  destruct (endswith (filename file) ".pdf") eqn:Hpdf.
  - split; [|intros H; exfalso; apply H; reflexivity].
    split; [|intros H; exfalso; apply H; reflexivity].
    intros [detail H]. exfalso. revert H.
    unfold upload_document. rewrite Hpdf. simpl.
    destruct (save_and_ingest lib file srv) as [[n|e] srv'];
      [discriminate|].
    destruct (os_path_exists (temp_filename_of file) srv'); [|discriminate].
    destruct (os_remove (temp_filename_of file) srv') as [[u|e'] srv''];
      discriminate.
  - unfold upload_document. rewrite Hpdf. simpl.
    split; [|reflexivity]. split; [discriminate|eauto].
Qed.

Lemma upload_400_iff_not_pdf_witness :
  upload_document (ExampleServer.libraries (Return tt))
    {| filename := "notes.PDF"; read := Return "bytes" |}
    ExampleServer.fresh =
  (HTTPException 400 (DetailText "Only PDF files are supported"),
   ExampleServer.fresh).
Proof.
  apply (proj2 (upload_400_iff_not_pdf _ _ _)).
  rewrite <- endswith_spec. vm_compute. discriminate.
Defined.



(** With a directory at "temp_<name>", [open] raises and so does the
    [os.remove] of the handler: the exception leaves the endpoint instead of
    the HTTPException, and nothing has changed. *)
Lemma upload_on_directory_is_unhandled lib file srv held :
  endswith (filename file) ".pdf" = true ->
  srv_files srv !! temp_filename_of file = Some held ->
  is_directory held = true ->
  upload_document lib file srv = (Unhandled OtherException, srv).
Proof.
  intros Hpdf Hheld Hdir.
  unfold upload_document, save_and_ingest, open_for_writing, sbind,
    os_path_exists, os_remove.
  rewrite Hpdf, Hheld. destruct held; try discriminate Hdir; simpl;
    rewrite Hheld; reflexivity.
Qed.

Example upload_on_directory :
  upload_document (ExampleServer.libraries (Return tt))
    ExampleServer.report ExampleServer.blocked =
  (Unhandled OtherException, ExampleServer.blocked).
Proof.
  apply (upload_on_directory_is_unhandled _ _ _ Directory); reflexivity.
Qed.

(** X15.  An upload changes the in-memory index only by installing the
    index that [from_documents] built from the uploaded bytes; it never
    clears it, and a failure before that point leaves the index of the
    previous document in place. *)
Theorem upload_installs_only_built_index lib file srv :
  srv_vector_store (upload_document lib file srv).2 = srv_vector_store srv
  \/ exists content docs splits vs,
       read file = Return content
       /\ loader_load lib (Some (FileBytes content)) = Return docs
       /\ split_documents lib docs = Return splits
       /\ from_documents lib splits = Return vs
       /\ srv_vector_store (upload_document lib file srv).2 = Some vs.
Proof.
  upload_paths file; try (left; reflexivity); right; eauto 10.
Qed.

(** X16.  A 200 from [upload_document] means every step returned; the
    body reports the number of chunks the splitter produced, the index built
    from them is the global index, and it is the one saved on disk. *)
Theorem upload_success lib file srv r :
  (upload_document lib file srv).1 = Ok r ->
  exists content docs splits vs,
    read file = Return content
    /\ loader_load lib (Some (FileBytes content)) = Return docs
    /\ split_documents lib docs = Return splits
    /\ from_documents lib splits = Return vs
    /\ save_local lib vs = Return tt
    /\ r = {| message := "PDF processed and vector store ready.";
              chunks_created := length splits |}
    /\ srv_vector_store (upload_document lib file srv).2 = Some vs
    /\ srv_files (upload_document lib file srv).2 !! vector_store_path =
       Some (FaissIndex vs).
Proof.
  upload_paths file; intros; simplify_eq.
  all: match goal with H : save_local _ _ = Return ?u |- _ => destruct u end.
  all: do 4 eexists; repeat split; try eassumption; simpl.
  all: rewrite ?lookup_delete_ne by congruence; apply lookup_insert_eq.
Qed.

(** X17.  When only [save_local] fails, the upload is answered with a 500
    although the new index is already the global one: [health_check]
    reports the store as ready and queries are served from the new
    document, whatever the failed save left on disk. *)
Theorem upload_save_failure_keeps_new_index
  lib file srv content docs splits vs e w :
  endswith (filename file) ".pdf" = true ->
  (open_for_writing lib (temp_filename_of file) srv).1 = Return tt ->
  read file = Return content ->
  loader_load lib (Some (FileBytes content)) = Return docs ->
  split_documents lib docs = Return splits ->
  from_documents lib splits = Return vs ->
  save_local lib vs = Raise e ->
  (upload_document lib file srv).1 =
    HTTPException 500 (DetailStr "Error processing PDF: " e)
  /\ srv_vector_store (upload_document lib file srv).2 = Some vs
  /\ vector_store (world_on w (upload_document lib file srv).2) = Some vs
  /\ vector_store_ready
       (health_check (world_on w (upload_document lib file srv).2)) = true.
Proof.
  intros Hpdf Hopen Hread Hload Hsplit Hbuild Hsave.
  unfold health_check, world_on. cbn [vector_store].
  revert Hopen. unfold upload_document. rewrite Hpdf.
  upload_paths file; intros; simplify_eq; auto.
Qed.

Lemma upload_save_failure_keeps_new_index_witness :
  (upload_document (ExampleServer.libraries (Raise OtherException))
     ExampleServer.report ExampleServer.fresh).1 =
    HTTPException 500 (DetailStr "Error processing PDF: " OtherException)
  /\ srv_vector_store
       (upload_document (ExampleServer.libraries (Raise OtherException))
          ExampleServer.report ExampleServer.fresh).2 =
     Some (Example.top_k [Example.chunk "page one"])
  /\ vector_store
       (world_on Example.no_index
          (upload_document (ExampleServer.libraries (Raise OtherException))
             ExampleServer.report ExampleServer.fresh).2) =
     Some (Example.top_k [Example.chunk "page one"])
  /\ vector_store_ready
       (health_check
          (world_on Example.no_index
             (upload_document (ExampleServer.libraries (Raise OtherException))
                ExampleServer.report ExampleServer.fresh).2)) = true.
Proof.
  apply (upload_save_failure_keeps_new_index
           (ExampleServer.libraries (Raise OtherException))
           ExampleServer.report ExampleServer.fresh
           "page one" [Example.chunk "page one"] [Example.chunk "page one"]
           (Example.top_k [Example.chunk "page one"]) OtherException
           Example.no_index);
    vm_compute; reflexivity.
Defined.



(** X19.  After an upload answered with 200, [health_check] reports the
    vector store as ready and [chat_endpoint] no longer answers 400. *)
Theorem upload_then_chat_is_ready lib file srv r w request detail :
  (upload_document lib file srv).1 = Ok r ->
  vector_store_ready
    (health_check (world_on w (upload_document lib file srv).2)) = true
  /\ (chat_endpoint (world_on w (upload_document lib file srv).2) request).1
     <> HTTPException 400 detail.
Proof.
  intros Hok.
  destruct (upload_success lib file srv r Hok)
    as (content & docs & splits & vs & _ & _ & _ & _ & _ & _ & Hvs & _).
  unfold health_check, chat_endpoint, world_on at 1 3. simpl.
  rewrite Hvs. split; [reflexivity|].
  match goal with |- context [run_agentic_rag ?w ?q ?d] =>
    destruct (run_agentic_rag w q d) as [[r'|e] s] end; discriminate.
Qed.

(** X20.  [load_vector_store] never writes a file and never clears the
    index: it returns True only after installing what [load_local] read
    from the index directory, and on False the state is untouched. *)
Theorem load_vector_store_sound lib srv :
  srv_files (load_vector_store lib srv).2 = srv_files srv
  /\ ((load_vector_store lib srv).1 = true ->
      exists saved vs,
        srv_files srv !! vector_store_path = Some saved
        /\ load_local lib saved = Return vs
        /\ srv_vector_store (load_vector_store lib srv).2 = Some vs)
  /\ ((load_vector_store lib srv).1 = false ->
      (load_vector_store lib srv).2 = srv).
Proof.
  unfold load_vector_store.
  destruct (srv_files srv !! vector_store_path) as [saved|] eqn:Hdisk; simpl.
  - destruct (load_local lib saved) as [vs|e] eqn:Hload; simpl.
    + repeat split; [eauto|discriminate].
    + repeat split; discriminate.
  - repeat split; discriminate.
Qed.

(** X21.  Save and load compose: after an upload answered with 200, a
    restarted server (no index in memory, the same files) whose
    [load_local] reads back what [save_local] wrote gets from
    [load_vector_store] the very index the upload installed. *)
Theorem upload_then_restart_restores_index lib file srv r :
  (upload_document lib file srv).1 = Ok r ->
  (forall vs, load_local lib (FaissIndex vs) = Return vs) ->
  load_vector_store lib
    {| srv_vector_store := None;
       srv_files := srv_files (upload_document lib file srv).2 |} =
  (true, (upload_document lib file srv).2).
Proof.
  intros Hok Hload.
  destruct (upload_success lib file srv r Hok)
    as (content & docs & splits & vs & _ & _ & _ & _ & _ & _ & Hvs & Hdisk).
  unfold load_vector_store. simpl. rewrite Hdisk, Hload.
  destruct (upload_document lib file srv).2 as [st files]. simpl in *.
  rewrite Hvs. reflexivity.
Qed.

Lemma upload_success_witness :
  exists content docs splits vs,
    read ExampleServer.report = Return content
    /\ loader_load (ExampleServer.libraries (Return tt))
         (Some (FileBytes content)) = Return docs
    /\ split_documents (ExampleServer.libraries (Return tt)) docs
       = Return splits
    /\ from_documents (ExampleServer.libraries (Return tt)) splits = Return vs
    /\ save_local (ExampleServer.libraries (Return tt)) vs = Return tt
    /\ {| message := "PDF processed and vector store ready.";
          chunks_created := 1 |} =
       {| message := "PDF processed and vector store ready.";
          chunks_created := length splits |}
    /\ srv_vector_store
         (upload_document (ExampleServer.libraries (Return tt))
            ExampleServer.report ExampleServer.fresh).2 = Some vs
    /\ srv_files
         (upload_document (ExampleServer.libraries (Return tt))
            ExampleServer.report ExampleServer.fresh).2
         !! vector_store_path = Some (FaissIndex vs).
Proof.
  apply (upload_success (ExampleServer.libraries (Return tt))
           ExampleServer.report ExampleServer.fresh).
  vm_compute. reflexivity.
Defined.

Lemma upload_then_chat_is_ready_witness :
  vector_store_ready
    (health_check
       (world_on Example.no_index
          (upload_document (ExampleServer.libraries (Return tt))
             ExampleServer.report ExampleServer.fresh).2)) = true
  /\ (chat_endpoint
        (world_on Example.no_index
           (upload_document (ExampleServer.libraries (Return tt))
              ExampleServer.report ExampleServer.fresh).2)
        {| req_question := "q"; req_debug := false |}).1
     <> HTTPException 400 (DetailText "Please upload a PDF first.").
Proof.
  apply (upload_then_chat_is_ready (ExampleServer.libraries (Return tt))
           ExampleServer.report ExampleServer.fresh
           {| message := "PDF processed and vector store ready.";
              chunks_created := 1 |}).
  vm_compute. reflexivity.
Defined.

Lemma upload_then_restart_restores_index_witness :
  load_vector_store (ExampleServer.libraries (Return tt))
    {| srv_vector_store := None;
       srv_files :=
         srv_files
           (upload_document (ExampleServer.libraries (Return tt))
              ExampleServer.report ExampleServer.fresh).2 |} =
  (true,
   (upload_document (ExampleServer.libraries (Return tt))
      ExampleServer.report ExampleServer.fresh).2).
Proof.
  apply (upload_then_restart_restores_index
           (ExampleServer.libraries (Return tt))
           ExampleServer.report ExampleServer.fresh
           {| message := "PDF processed and vector store ready.";
              chunks_created := 1 |}).
  - vm_compute. reflexivity.
  - intros vs. reflexivity.
Defined.

(** * The chat client *)

Lemma chat_loop_from post inputs : forall log,
  exists sent rest,
    inputs = sent ++ rest
    /\ posted (chat_loop post inputs log).2 = posted log ++ sent
    /\ Forall (fun question => is_quit question = false) sent
    /\ length (printed_lines (chat_loop post inputs log).2) =
       length (printed_lines log) + length sent
    /\ match (chat_loop post inputs log).1 with
       | Quit => exists word rest', rest = word :: rest' /\ is_quit word = true
       | EndOfInput => rest = []
       end.
Proof.
  induction inputs as [|question inputs IH]; intros log.
  - exists [], []. simpl. rewrite app_nil_r.
    repeat split; auto.
  - cbn [chat_loop]. destruct (is_quit question) eqn:Hq.
    + exists [], (question :: inputs). simpl. rewrite app_nil_r.
      repeat split; eauto.
    + destruct (IH {| posted := posted log ++ [question];
                      printed_lines :=
                        printed_lines log ++ [ask post log question] |})
        as (sent & rest & -> & Hposted & Hsent & Hprinted & Hend).
      exists (question :: sent), rest. simpl in *.
      rewrite Hposted, Hprinted, <- app_assoc, length_app. simpl.
      repeat split; auto. lia.
Qed.

(** X22.  [chat_loop] posts the lines typed before the first "exit" or
    "quit" (in any letter case), each as typed and in order, and prints one
    line per question posted whatever the server answered or raised; the
    quit word itself is never sent, and without one the loop ends when the
    input does. *)
Theorem chat_loop_posts_until_quit post inputs :
  exists rest,
    inputs =
      posted (chat_loop post inputs {| posted := []; printed_lines := [] |}).2
      ++ rest
    /\ Forall (fun question => is_quit question = false)
         (posted
            (chat_loop post inputs {| posted := []; printed_lines := [] |}).2)
    /\ length
         (printed_lines
            (chat_loop post inputs {| posted := []; printed_lines := [] |}).2)
       = length
           (posted
              (chat_loop post inputs {| posted := []; printed_lines := [] |}).2)
    /\ match
         (chat_loop post inputs {| posted := []; printed_lines := [] |}).1
       with
       | Quit => exists word rest', rest = word :: rest' /\ is_quit word = true
       | EndOfInput => rest = []
       end.
Proof.
  destruct (chat_loop_from post inputs {| posted := []; printed_lines := [] |})
    as (sent & rest & Hin & Hposted & Hsent & Hprinted & Hend).
  simpl in Hposted, Hprinted. exists rest.
  rewrite Hposted, Hprinted. auto.
Qed.

Example chat_loop_quits_on_uppercase_exit :
  chat_loop (fun _ _ => Raise OtherException)
    ["what is X?"; "EXIT"; "never sent"]
    {| posted := []; printed_lines := [] |} =
  (Quit, {| posted := ["what is X?"];
            printed_lines := [PrintConnectionError OtherException] |}).
Proof. vm_compute. reflexivity. Qed.
